(** * Fire-count pipeline of [scripts/process_fire_data.py]

    A shallow embedding of the aggregation and output stages of the
    fire-detection processor, together with the properties its
    specification states about them.

    Conventions of the embedding.
    - A pandas frame is the list of its rows, in frame order.
    - The [ACQ_DATE] column holds either strings or date objects
      ([acq_date]); the script branches on [isinstance(date, str)].
    - [fire_count] is an int64 column: sums wrap around ([int64_wrap]),
      and [int(...)] converts the wrapped value to a Python integer ([Z]).
    - [datetime.utcnow().isoformat() + 'Z'] is a reading of the clock,
      passed to the functions as the argument [now].
    - Progress narration printed to the console is left out; the
      diagnostics printed on the failure paths are kept ([message]).
    - Library calls whose computation is outside the script (the forward
      transform of a reference system, point-in-polygon containment, the
      reference system of a concatenation) are section variables. *)

From Stdlib Require Import ZArith List String Ascii Bool Lia.
From Stdlib Require Import Sorting.Sorted Sorting.Permutation.
From Stdlib Require Structures.OrderedTypeEx.
Import ListNotations.

Open Scope string_scope.
Open Scope list_scope.
Open Scope Z_scope.

(** ** Exceptions and outcomes of a call *)

Inductive exn : Type :=
| TypeError
| ValueError
| FileNotFoundError (path : string)
| IOError (path : string)
| AttributeError
| RequestException.

(** A call returns a value, raises an exception, or leaves through
    [sys.exit(code)] ([SystemExit] is not an [Exception]: the script's
    [except Exception] clauses do not catch it). *)
Inductive outcome (A : Type) : Type :=
| Return (a : A)
| Raise (e : exn)
| SysExit (code : Z).

Arguments Return {A} a.
Arguments Raise {A} e.
Arguments SysExit {A} code.

Definition obind {A B : Type} (c : outcome A) (k : A -> outcome B)
  : outcome B :=
  match c with
  | Return a => k a
  | Raise e => Raise e
  | SysExit n => SysExit n
  end.

Definition omap {A B : Type} (f : A -> B) (c : outcome A) : outcome B :=
  obind c (fun a => Return (f a)).

(** ** int64 arithmetic of the [fire_count] column *)

Definition int64_wrap (z : Z) : Z := (z + 2 ^ 63) mod 2 ^ 64 - 2 ^ 63.

Definition int64_add (a b : Z) : Z := int64_wrap (a + b).

(** [Series.sum()] of an int64 column; the empty sum is 0. *)
Definition int64_sum (l : list Z) : Z := fold_left int64_add l 0.

(** The mathematical sum, used to state what the totals add up to. *)
Definition Zsum (l : list Z) : Z := fold_right Z.add 0 l.

(** ** Dates *)

(** A date object as pandas hands it over: a calendar date and the time
    of day in nanoseconds. *)
Record Timestamp : Type := mkTimestamp {
  year : Z;
  month : Z;
  day : Z;
  time_ns : Z
}.

Inductive acq_date : Type :=
| DateStr (s : string)
| DateObj (ts : Timestamp).

Definition isinstance_str (d : acq_date) : bool :=
  match d with
  | DateStr _ => true
  | DateObj _ => false
  end.

Definition lex (c : comparison) (k : comparison) : comparison :=
  match c with
  | Eq => k
  | _ => c
  end.

Definition Timestamp_compare (a b : Timestamp) : comparison :=
  lex (year a ?= year b)
    (lex (month a ?= month b)
       (lex (day a ?= day b) (time_ns a ?= time_ns b))).

(** Ordering of two dates of the same kind.  Python refuses to order a
    string against a date object; every caller checks [same_kind] first,
    so the cross-kind cases below are never consulted on a path that
    returns. *)
Definition date_compare (a b : acq_date) : comparison :=
  match a, b with
  | DateStr s, DateStr t => String.compare s t
  | DateObj s, DateObj t => Timestamp_compare s t
  | DateStr _, DateObj _ => Lt
  | DateObj _, DateStr _ => Gt
  end.

Definition is_le (c : comparison) : bool :=
  match c with
  | Gt => false
  | _ => true
  end.

Definition is_eq (c : comparison) : bool :=
  match c with
  | Eq => true
  | _ => false
  end.

Definition date_leb (a b : acq_date) : bool := is_le (date_compare a b).

(** [a == b] on dates; a string never equals a date object. *)
Definition date_eqb (a b : acq_date) : bool := is_eq (date_compare a b).

(** All dates of a column are of the kind of its first one. *)
Definition same_kind (l : list acq_date) : bool :=
  match l with
  | [] => true
  | d :: r =>
      forallb (fun x => Bool.eqb (isinstance_str x) (isinstance_str d)) r
  end.

(** *** [strftime('%Y-%m-%d')] *)

Definition digit (n : Z) : ascii := ascii_of_nat (48 + Z.to_nat n).

Definition pad2 (n : Z) : string :=
  String (digit (n / 10)) (String (digit (n mod 10)) EmptyString).

Definition pad4 (n : Z) : string :=
  String (digit (n / 1000))
    (String (digit (n / 100 mod 10))
       (String (digit (n / 10 mod 10))
          (String (digit (n mod 10)) EmptyString))).

Definition strftime_Ymd (ts : Timestamp) : string :=
  pad4 (year ts) ++ "-" ++ pad2 (month ts) ++ "-" ++ pad2 (day ts).

(** The range of a pandas [Timestamp] is 1677-09-21 .. 2262-04-11. *)
Definition valid_Timestamp (ts : Timestamp) : bool :=
  (1677 <=? year ts) && (year ts <=? 2262)
  && (1 <=? month ts) && (month ts <=? 12)
  && (1 <=? day ts) && (day ts <=? 31).

Definition is_digit (c : ascii) : bool :=
  (48 <=? nat_of_ascii c)%nat && (nat_of_ascii c <=? 57)%nat.

Definition is_dash (c : ascii) : bool := Ascii.eqb c "-"%char.

(** The shape "YYYY-MM-DD". *)
Definition is_calendar_date_string (s : string) : bool :=
  match list_ascii_of_string s with
  | [y1; y2; y3; y4; h1; m1; m2; h2; d1; d2] =>
      is_digit y1 && is_digit y2 && is_digit y3 && is_digit y4
      && is_dash h1 && is_digit m1 && is_digit m2
      && is_dash h2 && is_digit d1 && is_digit d2
  | _ => false
  end.

(** ** Sorting and grouping as pandas and Python do them *)

Section Sorting.
Context {A : Type}.
Variable leb : A -> A -> bool.

Fixpoint insert_sorted (x : A) (l : list A) : list A :=
  match l with
  | [] => [x]
  | y :: r => if leb x y then x :: l else y :: insert_sorted x r
  end.

(** A stable sort: among elements that compare equal, the one that
    comes first in the input comes first in the output. *)
Definition sort_by (l : list A) : list A :=
  fold_right insert_sorted [] l.
End Sorting.

Section Unique.
Context {A : Type}.
Variable eqb : A -> A -> bool.

Fixpoint unique_from (seen l : list A) : list A :=
  match l with
  | [] => []
  | x :: r =>
      if existsb (eqb x) seen then unique_from seen r
      else x :: unique_from (x :: seen) r
  end.

(** [Series.unique()]: the distinct values in order of first
    appearance. *)
Definition unique (l : list A) : list A := unique_from [] l.
End Unique.

(** Python's [sorted] on the dates of a column: [TypeError] when a
    string meets a date object. *)
Definition sorted_dates (l : list acq_date) : outcome (list acq_date) :=
  if same_kind l then Return (sort_by date_leb l) else Raise TypeError.

(** [frame.groupby(key)] with the default [sort=True], followed by an
    aggregation of each group: one entry per distinct key, keys
    ascending, each with the aggregate of the rows that carry it. *)
Definition groupby {R K V : Type} (key_eqb key_leb : K -> K -> bool)
    (key : R -> K) (agg : list R -> V) (rows : list R) : list (K * V) :=
  map (fun k => (k, agg (filter (fun r => key_eqb (key r) k) rows)))
    (sort_by key_leb (unique key_eqb (map key rows))).

(** ** Matched points and the aggregate table *)

(** A row of [points_districts]: a fire point joined with the district
    that contains it. *)
Record matched_point : Type := mkMatched {
  mp_ACQ_DATE : acq_date;
  mp_state : string;
  mp_dtname : string
}.

(** A row of [district_counts]. *)
Record row : Type := mkRow {
  ACQ_DATE : acq_date;
  state : string;
  dtname : string;
  fire_count : Z
}.

Definition table : Type := list row.

Definition group_key : Type := acq_date * (string * string).

Definition key_of_point (p : matched_point) : group_key :=
  (mp_ACQ_DATE p, (mp_state p, mp_dtname p)).

Definition key_of_row (r : row) : group_key :=
  (ACQ_DATE r, (state r, dtname r)).

Definition pair_compare (a b : string * string) : comparison :=
  lex (String.compare (fst a) (fst b)) (String.compare (snd a) (snd b)).

Definition key_compare (a b : group_key) : comparison :=
  lex (date_compare (fst a) (fst b)) (pair_compare (snd a) (snd b)).

Definition key_leb (a b : group_key) : bool := is_le (key_compare a b).
Definition key_eqb (a b : group_key) : bool := is_eq (key_compare a b).

(** [groupby(['ACQ_DATE', 'state', DISTRICT_COLUMN]).size()
      .reset_index(name='fire_count')] *)
Definition group_sizes (pts : list matched_point) : table :=
  map (fun kv => mkRow (fst (fst kv)) (fst (snd (fst kv)))
                   (snd (snd (fst kv))) (snd kv))
    (groupby key_eqb key_leb key_of_point
       (fun g => Z.of_nat (List.length g)) pts).

(** The order of [sort_values(['ACQ_DATE', 'state', 'fire_count'],
    ascending=[True, True, False])]. *)
Definition row_compare (a b : row) : comparison :=
  lex (date_compare (ACQ_DATE a) (ACQ_DATE b))
    (lex (String.compare (state a) (state b))
       (fire_count b ?= fire_count a)).

Definition row_leb (a b : row) : bool := is_le (row_compare a b).

(** [frame.sort_values(['ACQ_DATE', 'state', 'fire_count'], ...)]: the
    sort on several columns is pandas' stable lexsort; a date column
    that mixes strings and date objects cannot be ordered. *)
Definition sort_values (t : table) : outcome table :=
  if same_kind (map ACQ_DATE t) then Return (sort_by row_leb t)
  else Raise TypeError.

(** Lines 157-158 of [process_fire_counts]: group, count, sort. *)
Definition aggregate (pts : list matched_point) : outcome table :=
  sort_values (group_sizes pts).

(** [a] may stand before [b] in the sorted table: earlier date, or same
    date and smaller region label, or same date and region and a count
    that is not smaller. *)
Definition row_le (a b : row) : Prop :=
  date_compare (ACQ_DATE a) (ACQ_DATE b) = Lt
  \/ (ACQ_DATE a = ACQ_DATE b
      /\ (String.compare (state a) (state b) = Lt
          \/ (state a = state b /\ fire_count b <= fire_count a))).

(** ** The two output documents *)

Record district_entry : Type := mkDistrictEntry {
  district : string;
  entry_fire_count : Z
}.

Record region_block : Type := mkRegionBlock {
  districts : list district_entry;
  total : Z
}.

Record daily_entry : Type := mkDailyEntry {
  date : string;
  punjab : region_block;
  haryana : region_block;
  combined_total : Z
}.

Record daily_document : Type := mkDailyDocument {
  last_updated : string;
  data_source : string;
  time_period : string;
  daily_data : list daily_entry
}.

Record top_district : Type := mkTopDistrict {
  top_state : string;
  top_district_name : string;
  total_fires : Z
}.

Record date_range_t : Type := mkDateRange {
  range_start : option string;
  range_end : option string
}.

Record state_totals_t : Type := mkStateTotals {
  punjab_total : Z;
  haryana_total : Z
}.

Record summary_document : Type := mkSummaryDocument {
  summary_last_updated : string;
  total_fire_count : Z;
  date_range : date_range_t;
  top_districts : list top_district;
  state_totals : state_totals_t
}.

(** ** [create_json_output] *)

(** [date_data[date_data['state'] == label]] *)
Definition state_rows (label : string) (rows : table) : table :=
  filter (fun r => String.eqb (state r) label) rows.

(** The list comprehension over [iterrows()]. *)
Definition district_entries (rows : table) : list district_entry :=
  map (fun r => mkDistrictEntry (dtname r) (fire_count r)) rows.

Definition region_of (rows : table) : region_block :=
  mkRegionBlock (district_entries rows) (int64_sum (map fire_count rows)).

(** Lines 205-208: a string is taken as it is, a date object is
    formatted. *)
Definition date_str_of (d : acq_date) : string :=
  match d with
  | DateStr s => s
  | DateObj ts => strftime_Ymd ts
  end.

(** The body of the loop over [unique_dates] (lines 204-242). *)
Definition daily_entry_of (district_counts : table) (d : acq_date)
  : daily_entry :=
  let date_data :=
    filter (fun r => date_eqb (ACQ_DATE r) d) district_counts in
  let punjab_data := state_rows "Punjab" date_data in
  let haryana_data := state_rows "Haryana" date_data in
  mkDailyEntry (date_str_of d)
    (region_of punjab_data)
    (region_of haryana_data)
    (int64_add (int64_sum (map fire_count punjab_data))
       (int64_sum (map fire_count haryana_data))).

(** [sorted(district_counts['ACQ_DATE'].unique())] *)
Definition unique_dates_of (district_counts : table)
  : outcome (list acq_date) :=
  sorted_dates (unique date_eqb (map ACQ_DATE district_counts)).

Definition create_json_output (now : string) (district_counts : table)
  : outcome daily_document :=
  match district_counts with
  | [] =>
      Return (mkDailyDocument now "NASA FIRMS VIIRS (NOAA-20)" "7 days" [])
  | _ :: _ =>
      obind (unique_dates_of district_counts) (fun unique_dates =>
        Return (mkDailyDocument now "NASA FIRMS VIIRS (NOAA-20)" "7 days"
                  (map (daily_entry_of district_counts) unique_dates)))
  end.

(** ** [create_summary_output] *)

(** A value used where the document needs a string.  In the branch
    taken when [unique_dates[0]] is a string the dates go into the
    document as they are, and one that is no string cannot be
    serialised; in the other branch [strftime] is called, which a
    string does not have.  Neither failure can happen once
    [sorted_dates] has returned. *)
Definition as_json_string (d : acq_date) : outcome string :=
  match d with
  | DateStr s => Return s
  | DateObj _ => Raise TypeError
  end.

Definition call_strftime (d : acq_date) : outcome string :=
  match d with
  | DateStr _ => Raise AttributeError
  | DateObj ts => Return (strftime_Ymd ts)
  end.

(** Lines 266-275. *)
Definition date_range_of (unique_dates : list acq_date)
  : outcome date_range_t :=
  match unique_dates with
  | [] => Return (mkDateRange None None)
  | first :: _ =>
      let final := List.last unique_dates first in
      if isinstance_str first then
        obind (as_json_string first) (fun start_date =>
        obind (as_json_string final) (fun end_date =>
        Return (mkDateRange (Some start_date) (Some end_date))))
      else
        obind (call_strftime first) (fun start_date =>
        obind (call_strftime final) (fun end_date =>
        Return (mkDateRange (Some start_date) (Some end_date))))
  end.

Definition pair_leb (a b : string * string) : bool :=
  is_le (pair_compare a b).
Definition pair_eqb (a b : string * string) : bool :=
  is_eq (pair_compare a b).

(** [groupby(['state', DISTRICT_COLUMN])['fire_count'].sum()
      .reset_index()] *)
Definition district_sums (district_counts : table)
  : list ((string * string) * Z) :=
  groupby pair_eqb pair_leb (fun r => (state r, dtname r))
    (fun g => int64_sum (map fire_count g)) district_counts.

(** [sort_values('fire_count', ascending=False)] on one column: pandas
    reverses the column, sorts it ascending and reverses the outcome.
    The default sort kind gives no promise on the order of equal
    values; the stable order taken here is the one numpy's introsort
    produces on short columns. *)
Definition sort_values_desc {K : Type} (l : list (K * Z)) : list (K * Z) :=
  rev (sort_by (fun a b => snd a <=? snd b) (rev l)).

(** Lines 288-298, for a given way of sorting the grouped sums. *)
Definition top_districts_with
    (sorter : list ((string * string) * Z) -> list ((string * string) * Z))
    (district_counts : table) : list top_district :=
  map (fun kv => mkTopDistrict (fst (fst kv)) (snd (fst kv)) (snd kv))
    (firstn 20 (sorter (district_sums district_counts))).

(** Lines 288-298. *)
Definition top_districts_of (district_counts : table) : list top_district :=
  top_districts_with sort_values_desc district_counts.

(** [groupby('state')['fire_count'].sum()] *)
Definition state_sums (district_counts : table) : list (string * Z) :=
  groupby String.eqb String.leb state
    (fun g => int64_sum (map fire_count g)) district_counts.

(** [state_totals.get(label, 0)] *)
Definition get_total (label : string) (sums : list (string * Z)) : Z :=
  match find (fun kv => String.eqb (fst kv) label) sums with
  | Some kv => snd kv
  | None => 0
  end.

Definition create_summary_output (now : string) (district_counts : table)
  : outcome summary_document :=
  match district_counts with
  | [] =>
      Return (mkSummaryDocument now 0 (mkDateRange None None) []
                (mkStateTotals 0 0))
  | _ :: _ =>
      obind (unique_dates_of district_counts) (fun unique_dates =>
      obind (date_range_of unique_dates) (fun range =>
        let state_totals := state_sums district_counts in
        Return (mkSummaryDocument now
                  (int64_sum (map fire_count district_counts))
                  range
                  (top_districts_of district_counts)
                  (mkStateTotals (get_total "Punjab" state_totals)
                     (get_total "Haryana" state_totals)))))
  end.

(** ** The scenario of the specification, run on the embedding *)

Definition scenario_points : list matched_point :=
  [ mkMatched (DateStr "2024-01-01") "Punjab" "Ludhiana";
    mkMatched (DateStr "2024-01-02") "Punjab" "Patiala";
    mkMatched (DateStr "2024-01-01") "Punjab" "Ludhiana" ].

(** ** Configuration (lines 21-32) *)

Definition PUNJAB_SHAPEFILE : string := "shapefiles/Punjab_District.shp".
Definition HARYANA_SHAPEFILE : string := "shapefiles/Haryana_District.shp".
Definition OUTPUT_JSON : string := "data/fire_counts.json".
Definition SUMMARY_JSON : string := "data/fire_counts_summary.json".
Definition DISTRICT_COLUMN : string := "dtname".
Definition FIRE_SHAPEFILE : string :=
  "temp_fire_data/J1_VIIRS_C2_South_Asia_7d.shp".

(** ** The run: console, files, exceptions and [sys.exit] *)

(** The diagnostics the script prints on its failure and warning
    paths.  [AvailableColumns] stands for the line
    ["Available columns: " + str(list(frame.columns))]. *)
Inductive message : Type :=
| ColumnNotFound (column source : string)
| AvailableColumns (columns : list string)
| Warning (text : string)
| ErrorIn (stage : string) (e : exn)
| FatalError (e : exn).

(** What a file holds: what it held before the run, or a document
    written by [json.dump]. *)
Inductive file_content : Type :=
| Previous (text : string)
| DailyJson (d : daily_document)
| SummaryJson (s : summary_document).

Definition file_system : Type := string -> option file_content.

Record run_state : Type := mkRunState {
  stdout : list message;
  files : file_system
}.

Definition M (A : Type) : Type := run_state -> outcome A * run_state.

Definition ret {A : Type} (a : A) : M A := fun s => (Return a, s).

Definition bind {A B : Type} (c : M A) (k : A -> M B) : M B :=
  fun s =>
    match c s with
    | (Return a, s') => k a s'
    | (Raise e, s') => (Raise e, s')
    | (SysExit n, s') => (SysExit n, s')
    end.

Notation "x <- c ;; k" := (bind c (fun x => k))
  (at level 61, c at next level, right associativity).
Notation "c ;;; k" := (bind c (fun _ => k))
  (at level 61, right associativity).

Definition lift {A : Type} (o : outcome A) : M A := fun s => (o, s).

Definition print (m : message) : M unit :=
  fun s => (Return tt, mkRunState (stdout s ++ [m]) (files s)).

Definition sys_exit {A : Type} (code : Z) : M A := fun s => (SysExit code, s).

(** [try: body  except Exception as e: handler e] *)
Definition try_except {A : Type} (body : M A) (handler : exn -> M A) : M A :=
  fun s =>
    match body s with
    | (Raise e, s') => handler e s'
    | r => r
    end.

Definition put_file (path : string) (c : file_content) (fs : file_system)
  : file_system :=
  fun p => if String.eqb p path then Some c else fs p.

(** The status the process ends with: 0 when [main] returns, the
    argument of [sys.exit], 1 on an exception nobody caught. *)
Definition exit_status {A : Type} (o : outcome A) : Z :=
  match o with
  | Return _ => 0
  | Raise _ => 1
  | SysExit code => code
  end.

Section Pipeline.

Set Implicit Arguments.

(** Geometries and reference systems belong to geopandas. *)
Variables geometry polygon crs : Type.
Variable crs_eq_dec : forall a b : crs, {a = b} + {a <> b}.

(** The forward transform between two reference systems. *)
Variable transform : crs -> crs -> geometry -> geometry.

(** Point-in-polygon containment, the predicate of the join. *)
Variable within : geometry -> polygon -> bool.

(** The reference system [pd.concat] gives the combined frame, or the
    exception it raises. *)
Variable concat_crs : option crs -> option crs -> outcome (option crs).

Record point_record : Type := mkPoint {
  point_ACQ_DATE : acq_date;
  point_geometry : geometry
}.

Record point_frame : Type := mkPointFrame {
  point_rows : list point_record;
  point_crs : option crs
}.

(** A row of a polygon source: its value in each attribute column
    (consulted for the columns of the frame only) and its shape. *)
Record polygon_record : Type := mkPolygon {
  attribute : string -> string;
  shape : polygon
}.

Record polygon_frame : Type := mkPolygonFrame {
  columns : list string;
  polygon_rows : list polygon_record;
  polygon_crs : option crs
}.

(** A row of [all_districts], reduced to the columns the script
    reads. *)
Record district_record : Type := mkDistrict {
  district_state : string;
  district_dtname : string;
  district_shape : polygon
}.

Record district_frame : Type := mkDistrictFrame {
  district_rows : list district_record;
  district_crs : option crs
}.

(** Everything outside the script that a run consults. *)
Record world : Type := mkWorld {
  makedirs : outcome unit;
  fetch_and_extract : outcome unit;
  path_exists : string -> bool;
  read_polygons : string -> outcome polygon_frame;
  read_points : string -> outcome point_frame;
  utcnow_daily : string;
  utcnow_summary : string;
  writable : string -> bool
}.

Variable w : world.

(** [with open(path, 'w') as f: json.dump(doc, f, indent=2)] *)
Definition dump (path : string) (c : file_content) : M unit :=
  fun s =>
    if writable w path
    then (Return tt, mkRunState (stdout s) (put_file path c (files s)))
    else (Raise (IOError path), s).

Definition download_and_extract_fire_data : M string :=
  try_except
    (lift (fetch_and_extract w) ;;;
     if path_exists w FIRE_SHAPEFILE then ret FIRE_SHAPEFILE
     else lift (Raise (FileNotFoundError FIRE_SHAPEFILE)))
    (fun e => print (ErrorIn "downloading fire data" e) ;;; sys_exit 1).

Definition has_column (name : string) (f : polygon_frame) : bool :=
  existsb (String.eqb name) (columns f).

(** [frame['state'] = label], keeping the columns read later. *)
Definition stamp (label : string) (f : polygon_frame)
  : list district_record :=
  map (fun r => mkDistrict label (attribute r DISTRICT_COLUMN) (shape r))
    (polygon_rows f).

Definition load_district_shapefiles : M district_frame :=
  try_except
    ((if path_exists w PUNJAB_SHAPEFILE then ret tt
      else lift (Raise (FileNotFoundError PUNJAB_SHAPEFILE))) ;;;
     (if path_exists w HARYANA_SHAPEFILE then ret tt
      else lift (Raise (FileNotFoundError HARYANA_SHAPEFILE))) ;;;
     punjab_districts <- lift (read_polygons w PUNJAB_SHAPEFILE) ;;
     haryana_districts <- lift (read_polygons w HARYANA_SHAPEFILE) ;;
     (if has_column DISTRICT_COLUMN punjab_districts then ret tt
      else print (ColumnNotFound DISTRICT_COLUMN "Punjab") ;;;
           print (AvailableColumns (columns punjab_districts)) ;;;
           sys_exit 1) ;;;
     (if has_column DISTRICT_COLUMN haryana_districts then ret tt
      else print (ColumnNotFound DISTRICT_COLUMN "Haryana") ;;;
           print (AvailableColumns (columns haryana_districts)) ;;;
           sys_exit 1) ;;;
     combined_crs <- lift (concat_crs (polygon_crs punjab_districts)
                             (polygon_crs haryana_districts)) ;;
     ret (mkDistrictFrame
            (stamp "Punjab" punjab_districts
             ++ stamp "Haryana" haryana_districts)
            combined_crs))
    (fun e => print (ErrorIn "loading district shapefiles" e) ;;;
              sys_exit 1).

(** [points.sort_values(by='ACQ_DATE')]: a column that mixes strings
    and date objects cannot be ordered.  (The order pandas leaves
    among points of the same date plays no part in what follows: the
    grouping counts the points of a key.) *)
Definition sort_points (points : point_frame) : outcome point_frame :=
  if same_kind (map point_ACQ_DATE (point_rows points))
  then Return (mkPointFrame
                 (sort_by (fun a b => date_leb (point_ACQ_DATE a)
                                        (point_ACQ_DATE b))
                    (point_rows points))
                 (point_crs points))
  else Raise TypeError.

Definition option_crs_eqb (a b : option crs) : bool :=
  match a, b with
  | None, None => true
  | Some x, Some y => if crs_eq_dec x y then true else false
  | _, _ => false
  end.

(** [points.to_crs(target)]: every geometry goes through the forward
    transform; a frame without reference system cannot be
    transformed, and a target has to be given. *)
Definition to_crs (points : point_frame) (target : option crs)
  : outcome point_frame :=
  match point_crs points, target with
  | Some src, Some dst =>
      Return (mkPointFrame
                (map (fun p => mkPoint (point_ACQ_DATE p)
                                 (transform src dst (point_geometry p)))
                   (point_rows points))
                (Some dst))
  | _, _ => Raise ValueError
  end.

(** Lines 141-144. *)
Definition reconcile_crs (points : point_frame) (districts : district_frame)
  : outcome point_frame :=
  if negb (option_crs_eqb (point_crs points) (district_crs districts))
  then to_crs points (district_crs districts)
  else Return points.

(** [gpd.sjoin(points, districts, how='inner', predicate='within')]:
    one row for every point and every district that contains it (a
    point within two districts gives two rows). *)
Definition sjoin (points : point_frame) (districts : district_frame)
  : list matched_point :=
  flat_map
    (fun p =>
       map (fun d => mkMatched (point_ACQ_DATE p) (district_state d)
                       (district_dtname d))
         (filter (fun d => within (point_geometry p) (district_shape d))
            (district_rows districts)))
    (point_rows points).

Definition process_fire_counts (fire_shapefile : string)
    (districts : district_frame) : M table :=
  try_except
    (points <- lift (read_points w fire_shapefile) ;;
     match point_rows points with
     | [] => print (Warning "No fire points found in dataset") ;;; ret []
     | _ :: _ =>
         points <- lift (sort_points points) ;;
         points <- lift (reconcile_crs points districts) ;;
         let points_districts := sjoin points districts in
         (match points_districts with
          | [] => print (Warning "No fires matched any districts!")
          | _ :: _ => ret tt
          end) ;;;
         lift (aggregate points_districts)
     end)
    (fun e => print (ErrorIn "fire processing" e) ;;; sys_exit 1).

Definition main : M unit :=
  try_except
    (lift (makedirs w) ;;;
     fire_shapefile <- download_and_extract_fire_data ;;
     districts <- load_district_shapefiles ;;
     district_counts <- process_fire_counts fire_shapefile districts ;;
     daily_output <-
       lift (create_json_output (utcnow_daily w) district_counts) ;;
     summary_output <-
       lift (create_summary_output (utcnow_summary w) district_counts) ;;
     dump OUTPUT_JSON (DailyJson daily_output) ;;;
     dump SUMMARY_JSON (SummaryJson summary_output) ;;;
     ret tt)
    (fun e => print (FatalError e) ;;; sys_exit 1).

End Pipeline.

Unset Implicit Arguments.


(** ** Well-formed aggregate tables *)

(** The counts of an aggregate record are non-negative, and the counts
    of a table add up to a number an int64 holds. *)
Definition counts_fit (t : table) : bool :=
  forallb (fun r => 0 <=? fire_count r) t
  && (Zsum (map fire_count t) <? 2 ^ 63).

Definition nonneg_counts (t : table) : Prop :=
  Forall (fun z => 0 <= z) (map fire_count t).

(** The region of an aggregate record is one of the two labels the
    loader stamps. *)
Definition region_label (s : string) : bool :=
  String.eqb s "Punjab" || String.eqb s "Haryana".

Definition two_regions (t : table) : bool :=
  forallb (fun r => region_label (state r)) t.

(** The number of matched points that carry a key. *)
Definition count_key (k : group_key) (pts : list matched_point) : nat :=
  List.length (filter (fun p => key_eqb (key_of_point p) k) pts).

(** What is claimed of a per-date entry of the daily document. *)
Definition totals_add_up (e : daily_entry) : Prop :=
  combined_total e = total (punjab e) + total (haryana e)
  /\ total (punjab e)
     = Zsum (map entry_fire_count (districts (punjab e)))
  /\ total (haryana e)
     = Zsum (map entry_fire_count (districts (haryana e))).

(** What is claimed of the district list of one region in the entry of
    date [d]: no district twice, every listed district with the number
    of matched points of its key, which is at least one; so a key
    without matched points is not listed. *)
Definition region_listing (pts : list matched_point) (d : acq_date)
    (label : string) (block : region_block) : Prop :=
  NoDup (map district (districts block))
  /\ (forall x, In x (districts block) ->
        1 <= entry_fire_count x
        /\ entry_fire_count x
           = Z.of_nat (count_key (d, (label, district x)) pts))
  /\ (forall name, count_key (d, (label, name)) pts = 0%nat ->
        ~ In name (map district (districts block))).

(** ** The order of [top_districts] *)

(** The position of the first row of the table that carries the pair
    (region, sub-region). *)
Fixpoint first_encounter (k : string * string) (t : table) : nat :=
  match t with
  | [] => 0
  | r :: t' =>
      if pair_eqb (state r, dtname r) k then 0
      else S (first_encounter k t')
  end.

Definition top_key (x : top_district) : string * string :=
  (top_state x, top_district_name x).

(** Entries with equal totals stand in the order in which their pairs
    are first met in the table. *)
Definition ties_by_first_encounter (t : table) (tops : list top_district)
  : Prop :=
  forall l1 a l2 b l3,
    tops = l1 ++ a :: l2 ++ b :: l3 ->
    total_fires a = total_fires b ->
    (first_encounter (top_key a) t < first_encounter (top_key b) t)%nat.

(** [a] may stand before [b] in [top_districts]. *)
Definition total_ge (a b : top_district) : Prop :=
  total_fires b <= total_fires a.

(** Two districts with the same total over the period, the one met
    first in the table being the later one in label order. *)
Definition tie_points : list matched_point :=
  [ mkMatched (DateStr "2024-01-01") "Punjab" "Patiala";
    mkMatched (DateStr "2024-01-01") "Punjab" "Patiala";
    mkMatched (DateStr "2024-01-01") "Punjab" "Ludhiana";
    mkMatched (DateStr "2024-01-02") "Punjab" "Ludhiana" ].

Definition tie_table : table :=
  [ mkRow (DateStr "2024-01-01") "Punjab" "Patiala" 2;
    mkRow (DateStr "2024-01-01") "Punjab" "Ludhiana" 1;
    mkRow (DateStr "2024-01-02") "Punjab" "Ludhiana" 1 ].

(** The same totals with the two districts in each other's place. *)
Definition tie_table_swapped : table :=
  [ mkRow (DateStr "2024-01-01") "Punjab" "Ludhiana" 2;
    mkRow (DateStr "2024-01-01") "Punjab" "Patiala" 1;
    mkRow (DateStr "2024-01-02") "Punjab" "Patiala" 1 ].

(** ** Dates in the documents *)

(** How an upstream date [d] shows in a document as [x]: a string as it
    is; a date object as its calendar date, which has the shape
    "YYYY-MM-DD". *)
Definition renders (d : acq_date) (x : string) : Prop :=
  match d with
  | DateStr s => x = s
  | DateObj ts =>
      x = strftime_Ymd ts
      /\ (valid_Timestamp ts = true -> is_calendar_date_string x = true)
  end.

(** [x] is how some date of the table shows. *)
Definition emitted_date (t : table) (x : string) : Prop :=
  exists d, In d (map ACQ_DATE t) /\ renders d x.

(** A table whose upstream date is a string in another format. *)
Definition slash_table : table :=
  [ mkRow (DateStr "2024/01/05") "Punjab" "Ludhiana" 1 ].

(** ** Documents up to their time stamp *)

Definition without_last_updated (doc : daily_document) : daily_document :=
  mkDailyDocument "" (data_source doc) (time_period doc) (daily_data doc).

Definition summary_without_last_updated (sdoc : summary_document)
  : summary_document :=
  mkSummaryDocument "" (total_fire_count sdoc) (date_range sdoc)
    (top_districts sdoc) (state_totals sdoc).

(** ** A small world to run the pipeline in

    Locations are pairs of integers, districts are boxes, reference
    systems are numbered; the transform between two systems shifts the
    first coordinate by the difference of their numbers. *)

Definition box : Type := (Z * Z) * (Z * Z).

Definition toy_transform (src dst : Z) (g : Z * Z) : Z * Z :=
  (fst g + (dst - src), snd g).

Definition toy_within (g : Z * Z) (b : box) : bool :=
  (fst (fst b) <? fst g) && (fst g <? fst (snd b))
  && (snd (fst b) <? snd g) && (snd g <? snd (snd b)).

Definition toy_concat_crs (a b : option Z) : outcome (option Z) :=
  match a, b with
  | Some x, Some y => if Z.eq_dec x y then Return a else Raise ValueError
  | None, None => Return None
  | _, _ => Raise ValueError
  end.

Definition toy_points : point_frame (Z * Z) Z :=
  mkPointFrame
    [ mkPoint (DateStr "2024-01-01") (5, 5);
      mkPoint (DateStr "2024-01-02") (15, 5);
      mkPoint (DateStr "2024-01-01") (6, 6) ]
    (Some 4326).

Definition toy_punjab : polygon_frame box Z :=
  mkPolygonFrame ["dtname"; "geometry"]
    [ mkPolygon (fun _ => "Ludhiana") ((0, 0), (10, 10));
      mkPolygon (fun _ => "Patiala") ((10, 0), (20, 10)) ]
    (Some 4326).

Definition toy_haryana : polygon_frame box Z :=
  mkPolygonFrame ["dtname"; "geometry"]
    [ mkPolygon (fun _ => "Hisar") ((0, 10), (10, 20)) ]
    (Some 4326).

(** A Haryana source that names its districts in another column. *)
Definition toy_haryana_misnamed : polygon_frame box Z :=
  mkPolygonFrame ["DISTRICT"; "geometry"]
    [ mkPolygon (fun _ => "Hisar") ((0, 10), (10, 20)) ]
    (Some 4326).

Definition toy_world (haryana_source : polygon_frame box Z)
    (points : point_frame (Z * Z) Z) : world (Z * Z) box Z :=
  mkWorld (Return tt) (Return tt) (fun _ => true)
    (fun path => if String.eqb path PUNJAB_SHAPEFILE
                 then Return toy_punjab else Return haryana_source)
    (fun _ => Return points)
    "2024-01-03T06:00:00.000001Z" "2024-01-03T06:00:00.000002Z"
    (fun _ => true).

Definition toy_districts : district_frame box Z :=
  mkDistrictFrame (stamp "Punjab" toy_punjab ++ stamp "Haryana" toy_haryana)
    (Some 4326).

(** Points that are far from every district. *)
Definition far_points : point_frame (Z * Z) Z :=
  mkPointFrame
    [ mkPoint (DateStr "2024-01-01") (500, 500);
      mkPoint (DateStr "2024-01-02") (600, 500) ]
    (Some 4326).

(** The points of [toy_points] in another reference system. *)
Definition shifted_points : point_frame (Z * Z) Z :=
  mkPointFrame
    [ mkPoint (DateStr "2024-01-01") (-995, 5);
      mkPoint (DateStr "2024-01-02") (-985, 5);
      mkPoint (DateStr "2024-01-01") (-994, 6) ]
    (Some 3326).

Definition initial_state : run_state :=
  mkRunState []
    (fun p => if String.eqb p OUTPUT_JSON then Some (Previous "{}")
              else None).

(** What [to_crs] does to one point. *)
Definition reproject {geometry crs : Type}
    (transform : crs -> crs -> geometry -> geometry) (src dst : crs)
    (p : point_record geometry) : point_record geometry :=
  mkPoint (point_ACQ_DATE p) (transform src dst (point_geometry p)).

(** Every district of the combined frame carries one of the two region
    labels. *)
Definition districts_labelled {polygon crs : Type}
    (districts : district_frame polygon crs) : Prop :=
  Forall (fun d => region_label (district_state d) = true)
    (district_rows districts).

Definition points_labelled (pts : list matched_point) : Prop :=
  Forall (fun p => region_label (mp_state p) = true) pts.

(** No point lies within a district: the frame of points is empty, or
    the join of the sorted, reconciled points is. *)
Definition no_point_matches {geometry polygon crs : Type}
    (crs_eq_dec : forall a b : crs, {a = b} + {a <> b})
    (transform : crs -> crs -> geometry -> geometry)
    (within : geometry -> polygon -> bool)
    (points : point_frame geometry crs)
    (districts : district_frame polygon crs) : Prop :=
  point_rows points = []
  \/ exists sorted reconciled,
       sort_points points = Return sorted
       /\ reconcile_crs crs_eq_dec transform sorted districts
          = Return reconciled
       /\ sjoin within reconciled districts = [].

(** A run that stops with status 1 after naming the missing column and
    listing the columns the source has, and leaves the files alone. *)
Definition aborts_listing (source : string) (available : list string)
    (before : run_state) (run : outcome unit * run_state) : Prop :=
  exit_status (fst run) = 1
  /\ stdout (snd run)
     = stdout before ++ [ColumnNotFound DISTRICT_COLUMN source;
                         AvailableColumns available]
  /\ files (snd run) = files before.

Definition empty_daily_document (now : string) : daily_document :=
  mkDailyDocument now "NASA FIRMS VIIRS (NOAA-20)" "7 days" [].

Definition empty_summary_document (now : string) : summary_document :=
  mkSummaryDocument now 0 (mkDateRange None None) [] (mkStateTotals 0 0).

(** A table whose upstream dates are date objects. *)
Definition object_table : table :=
  [ mkRow (DateObj (mkTimestamp 2024 1 5 0)) "Haryana" "Hisar" 3;
    mkRow (DateObj (mkTimestamp 2024 1 6 0)) "Punjab" "Patiala" 1 ].

Definition run_time : string := "2024-01-03T06:00:00.000001Z".

(** ** Further notions used to state what the stages do *)

(** The pair (region, sub-region) of a row. *)
Definition pair_of_row (r : row) : string * string := (state r, dtname r).

(** The whole-period count of a pair, as pandas sums it. *)
Definition period_sum (k : string * string) (t : table) : Z :=
  int64_sum (map fire_count
               (filter (fun r => pair_eqb (pair_of_row r) k) t)).

(** [a] is strictly earlier than [b]. *)
Definition date_lt (a b : acq_date) : Prop := date_compare a b = Lt.

(** [a] may stand before [b] in a district list sorted by descending
    count. *)
Definition count_ge (a b : district_entry) : Prop :=
  entry_fire_count b <= entry_fire_count a.

(** The number of districts that contain a point. *)
Definition containing {geometry polygon crs : Type}
    (within : geometry -> polygon -> bool)
    (districts : district_frame polygon crs) (p : point_record geometry)
  : nat :=
  List.length (filter (fun d => within (point_geometry p) (district_shape d))
                 (district_rows districts)).

Definition nat_sum (l : list nat) : nat := fold_right Nat.add 0%nat l.




(** Points without reference system. *)
Definition naive_points : point_frame (Z * Z) Z :=
  mkPointFrame (point_rows toy_points) None.

(** Points whose dates are partly strings, partly date objects. *)
Definition mixed_points : point_frame (Z * Z) Z :=
  mkPointFrame
    [ mkPoint (DateStr "2024-01-01") (5, 5);
      mkPoint (DateObj (mkTimestamp 2024 1 2 0)) (15, 5) ]
    (Some 4326).

(** A table whose dates are partly strings, partly date objects. *)
Definition mixed_table : table :=
  [ mkRow (DateStr "2024-01-01") "Punjab" "Ludhiana" 1;
    mkRow (DateObj (mkTimestamp 2024 1 2 0)) "Punjab" "Patiala" 1 ].

(** Two boxes that overlap, and a point in both. *)
Definition overlapping_districts : district_frame box Z :=
  mkDistrictFrame
    [ mkDistrict "Punjab" "Ludhiana" ((0, 0), (10, 10));
      mkDistrict "Haryana" "Hisar" ((4, 4), (20, 20)) ]
    (Some 4326).

(** The calls into the libraries return or raise; they do not end the
    process themselves. *)
Definition library_calls_raise {geometry polygon crs : Type}
    (concat_crs : option crs -> option crs -> outcome (option crs))
    (w : world geometry polygon crs) : Prop :=
  (forall n, makedirs w <> SysExit n)
  /\ (forall n, fetch_and_extract w <> SysExit n)
  /\ (forall path n, read_polygons w path <> SysExit n)
  /\ (forall path n, read_points w path <> SysExit n)
  /\ (forall a b n, concat_crs a b <> SysExit n).

(** A stage that left the files alone and either returned [a] or ended
    the process (with status 1 when the library calls only raise). *)
Definition stage_result {A : Type} (raises : Prop) (before : run_state)
    (run : outcome A * run_state) (returned : A -> Prop) : Prop :=
  files (snd run) = files before
  /\ ((exists a, fst run = Return a /\ returned a)
      \/ (exists n, fst run = SysExit n /\ (raises -> n = 1))).

(** No join has more rows than there are points times districts. *)
Definition join_bound {geometry polygon crs : Type}
    (w : world geometry polygon crs) : nat :=
  match read_points w FIRE_SHAPEFILE, read_polygons w PUNJAB_SHAPEFILE,
        read_polygons w HARYANA_SHAPEFILE with
  | Return points, Return punjab_source, Return haryana_source =>
      List.length (point_rows points)
      * (List.length (polygon_rows punjab_source)
         + List.length (polygon_rows haryana_source))
  | _, _, _ => 0
  end.

(** The three ways a run can end: stopped before any file was written;
    stopped after the daily document was written, the summary being
    unwritable; or done, with both documents of one table written. *)
Inductive run_end {geometry polygon crs : Type}
    (raises : Prop) (w : world geometry polygon crs) (before : run_state)
    (run : outcome unit * run_state) : Prop :=
| StoppedEarly (n : Z) :
    fst run = SysExit n -> (raises -> n = 1) ->
    files (snd run) = files before ->
    run_end raises w before run
| StoppedHalfway (t : table) (doc : daily_document) :
    fst run = SysExit 1 ->
    writable w OUTPUT_JSON = true -> writable w SUMMARY_JSON = false ->
    create_json_output (utcnow_daily w) t = Return doc ->
    files (snd run) = put_file OUTPUT_JSON (DailyJson doc) (files before) ->
    run_end raises w before run
| Done (pts : list matched_point) (t : table) (doc : daily_document)
       (sdoc : summary_document) :
    fst run = Return tt ->
    points_labelled pts -> aggregate pts = Return t ->
    (List.length pts <= join_bound w)%nat ->
    create_json_output (utcnow_daily w) t = Return doc ->
    create_summary_output (utcnow_summary w) t = Return sdoc ->
    files (snd run)
    = put_file SUMMARY_JSON (SummaryJson sdoc)
        (put_file OUTPUT_JSON (DailyJson doc) (files before)) ->
    run_end raises w before run.

(** A table with twenty-one districts on one day. *)
Definition crowded_table : table :=
  map (fun nc => mkRow (DateStr "2024-01-01") "Punjab" (fst nc) (snd nc))
    [ ("A", 21); ("B", 20); ("C", 19); ("D", 18); ("E", 17); ("F", 16);
      ("G", 15); ("H", 14); ("I", 13); ("J", 12); ("K", 11); ("L", 10);
      ("M", 9); ("N", 8); ("O", 7); ("P", 6); ("Q", 5); ("R", 4);
      ("S", 3); ("T", 2); ("U", 1) ].

Definition toy_run (world_of_run : world (Z * Z) box Z)
  : outcome unit * run_state :=
  main Z.eq_dec toy_transform toy_within toy_concat_crs world_of_run
    initial_state.
(** * Properties *)

(** ** Comparisons *)

Lemma lex_eq (c k : comparison) : lex c k = Eq <-> c = Eq /\ k = Eq.
Proof. destruct c, k; simpl; intuition congruence. Qed.

Lemma lex_opp (c k : comparison) :
  CompOpp (lex c k) = lex (CompOpp c) (CompOpp k).
Proof. destruct c; reflexivity. Qed.

Lemma is_le_total (c : comparison) : is_le c = true \/ is_le (CompOpp c) = true.
Proof. destruct c; simpl; auto. Qed.

Lemma string_compare_refl (s : string) : String.compare s s = Eq.
Proof.
  pose proof (String.compare_antisym s s) as H.
  destruct (String.compare s s); simpl in H; congruence.
Qed.

Lemma string_compare_eq (s t : string) : String.compare s t = Eq <-> s = t.
Proof.
  split.
  - apply String.compare_eq_iff.
  - intros ->. apply string_compare_refl.
Qed.

Lemma Timestamp_compare_eq (a b : Timestamp) :
  Timestamp_compare a b = Eq <-> a = b.
Proof.
  unfold Timestamp_compare. rewrite !lex_eq, !Z.compare_eq_iff.
  destruct a, b; simpl. split.
  - intros (-> & -> & -> & ->). reflexivity.
  - intros H. injection H. auto.
Qed.

Lemma Timestamp_compare_antisym (a b : Timestamp) :
  Timestamp_compare a b = CompOpp (Timestamp_compare b a).
Proof.
  unfold Timestamp_compare.
  rewrite !lex_opp, <- !Z.compare_antisym. reflexivity.
Qed.

Lemma date_compare_eq (a b : acq_date) : date_compare a b = Eq <-> a = b.
Proof.
  destruct a, b; simpl.
  - rewrite string_compare_eq. split; congruence.
  - split; discriminate.
  - split; discriminate.
  - rewrite Timestamp_compare_eq. split; congruence.
Qed.

Lemma date_compare_antisym (a b : acq_date) :
  date_compare a b = CompOpp (date_compare b a).
Proof.
  destruct a, b; simpl; auto using String.compare_antisym,
    Timestamp_compare_antisym.
Qed.

Lemma date_eqb_eq (a b : acq_date) : date_eqb a b = true <-> a = b.
Proof.
  unfold date_eqb. rewrite <- date_compare_eq.
  destruct (date_compare a b); simpl; split; congruence.
Qed.

Lemma date_leb_total (a b : acq_date) :
  date_leb a b = true \/ date_leb b a = true.
Proof.
  unfold date_leb. rewrite (date_compare_antisym b a). apply is_le_total.
Qed.

Lemma pair_compare_eq (a b : string * string) :
  pair_compare a b = Eq <-> a = b.
Proof.
  unfold pair_compare. rewrite lex_eq, !string_compare_eq.
  destruct a, b; simpl. split.
  - intros [-> ->]. reflexivity.
  - intros H. injection H. auto.
Qed.

Lemma pair_compare_antisym (a b : string * string) :
  pair_compare a b = CompOpp (pair_compare b a).
Proof.
  unfold pair_compare.
  rewrite lex_opp, <- !String.compare_antisym. reflexivity.
Qed.

Lemma pair_eqb_eq (a b : string * string) : pair_eqb a b = true <-> a = b.
Proof.
  unfold pair_eqb. rewrite <- pair_compare_eq.
  destruct (pair_compare a b); simpl; split; congruence.
Qed.

Lemma key_compare_eq (a b : group_key) : key_compare a b = Eq <-> a = b.
Proof.
  unfold key_compare. rewrite lex_eq, date_compare_eq, pair_compare_eq.
  destruct a, b; simpl. split.
  - intros [-> ->]. reflexivity.
  - intros H. injection H. auto.
Qed.

Lemma key_eqb_eq (a b : group_key) : key_eqb a b = true <-> a = b.
Proof.
  unfold key_eqb. rewrite <- key_compare_eq.
  destruct (key_compare a b); simpl; split; congruence.
Qed.

Lemma row_compare_antisym (a b : row) :
  row_compare a b = CompOpp (row_compare b a).
Proof.
  unfold row_compare.
  rewrite !lex_opp, <- date_compare_antisym, <- String.compare_antisym,
    <- Z.compare_antisym.
  reflexivity.
Qed.

Lemma row_leb_total (a b : row) : row_leb a b = true \/ row_leb b a = true.
Proof.
  unfold row_leb. rewrite (row_compare_antisym b a). apply is_le_total.
Qed.

(** ** The stable sort *)

Section SortingFacts.
Context {A : Type}.
Variable leb : A -> A -> bool.

Lemma insert_sorted_perm (x : A) (l : list A) :
  Permutation (insert_sorted leb x l) (x :: l).
Proof.
  induction l as [|y r IH]; simpl.
  - apply Permutation_refl.
  - destruct (leb x y).
    + apply Permutation_refl.
    + eapply Permutation_trans.
      * apply perm_skip, IH.
      * apply perm_swap.
Qed.

Lemma sort_by_perm (l : list A) : Permutation (sort_by leb l) l.
Proof.
  induction l as [|x r IH]; simpl.
  - apply Permutation_refl.
  - eapply Permutation_trans.
    + apply insert_sorted_perm.
    + apply perm_skip, IH.
Qed.

Lemma sort_by_In (x : A) (l : list A) : In x (sort_by leb l) <-> In x l.
Proof.
  split; apply Permutation_in;
    [ apply sort_by_perm | apply Permutation_sym, sort_by_perm ].
Qed.

Lemma sort_by_length (l : list A) :
  List.length (sort_by leb l) = List.length l.
Proof. apply Permutation_length, sort_by_perm. Qed.

Lemma sort_by_NoDup (l : list A) : NoDup l -> NoDup (sort_by leb l).
Proof.
  intros H. eapply Permutation_NoDup; [| exact H].
  apply Permutation_sym, sort_by_perm.
Qed.

Hypothesis leb_total : forall a b, leb a b = true \/ leb b a = true.

Lemma insert_sorted_sorted (x : A) (l : list A) :
  Sorted (fun a b => leb a b = true) l ->
  Sorted (fun a b => leb a b = true) (insert_sorted leb x l).
Proof.
  induction 1 as [|y r Hs IH Hh]; simpl.
  - repeat constructor.
  - destruct (leb x y) eqn:E.
    + constructor; [constructor; assumption | constructor; exact E].
    + constructor; [exact IH |].
      assert (Hyx : leb y x = true)
        by (destruct (leb_total x y); congruence).
      destruct r as [|z r']; simpl.
      * constructor. exact Hyx.
      * destruct (leb x z); constructor; [exact Hyx |].
        inversion Hh; assumption.
Qed.

Lemma sort_by_sorted (l : list A) :
  Sorted (fun a b => leb a b = true) (sort_by leb l).
Proof.
  induction l as [|x r IH]; simpl.
  - constructor.
  - apply insert_sorted_sorted, IH.
Qed.
End SortingFacts.

(** ** Distinct values *)

Section UniqueFacts.
Context {A : Type}.
Variable eqb : A -> A -> bool.
Hypothesis eqb_eq : forall a b, eqb a b = true <-> a = b.

Lemma existsb_eqb_In (x : A) (l : list A) :
  existsb (eqb x) l = true <-> In x l.
Proof.
  rewrite existsb_exists. split.
  - intros (y & Hy & E). apply eqb_eq in E. subst. exact Hy.
  - intros H. exists x. split; [exact H | apply eqb_eq; reflexivity].
Qed.

Lemma unique_from_In (x : A) (l seen : list A) :
  In x (unique_from eqb seen l) <-> In x l /\ ~ In x seen.
Proof.
  revert seen. induction l as [|y r IH]; intros seen; simpl.
  - tauto.
  - destruct (existsb (eqb y) seen) eqn:E.
    + apply existsb_eqb_In in E. rewrite IH.
      split; [tauto |]. intros [[-> | H] Hn]; tauto.
    + assert (Hy : ~ In y seen).
      { rewrite <- existsb_eqb_In. congruence. }
      simpl. rewrite IH. simpl.
      split.
      * intros [-> | [H Hn]]; [tauto |]. split; [tauto |]. tauto.
      * intros [[-> | H] Hn]; [tauto |].
        destruct (eqb y x) eqn:Eyx.
        -- apply eqb_eq in Eyx. tauto.
        -- right. split; [exact H |].
           intros [-> | Hs]; [| tauto].
           assert (eqb x x = true) by (apply eqb_eq; reflexivity).
           congruence.
Qed.

Lemma unique_from_NoDup (l seen : list A) :
  NoDup (unique_from eqb seen l).
Proof.
  revert seen. induction l as [|y r IH]; intros seen; simpl.
  - constructor.
  - destruct (existsb (eqb y) seen).
    + apply IH.
    + constructor; [| apply IH].
      rewrite unique_from_In. simpl. tauto.
Qed.

Lemma unique_In (x : A) (l : list A) : In x (unique eqb l) <-> In x l.
Proof. unfold unique. rewrite unique_from_In. simpl. tauto. Qed.

Lemma unique_NoDup (l : list A) : NoDup (unique eqb l).
Proof. apply unique_from_NoDup. Qed.
End UniqueFacts.

(** ** int64 sums that do not overflow *)

Lemma int64_wrap_small (z : Z) :
  - 2 ^ 63 <= z < 2 ^ 63 -> int64_wrap z = z.
Proof.
  intros H. unfold int64_wrap. rewrite Z.mod_small; lia.
Qed.

Lemma Zsum_nonneg (l : list Z) : Forall (fun z => 0 <= z) l -> 0 <= Zsum l.
Proof. induction 1; simpl; lia. Qed.

Lemma fold_int64_add (l : list Z) (acc : Z) :
  Forall (fun z => 0 <= z) l -> 0 <= acc -> acc + Zsum l < 2 ^ 63 ->
  fold_left int64_add l acc = acc + Zsum l.
Proof.
  intros Hl. revert acc. induction Hl as [|x r Hx Hr IH]; intros acc Ha Hb.
  - simpl. lia.
  - simpl in *. pose proof (Zsum_nonneg r Hr) as Hn.
    unfold int64_add at 2. rewrite int64_wrap_small by lia.
    rewrite IH; lia.
Qed.

Lemma int64_sum_exact (l : list Z) :
  Forall (fun z => 0 <= z) l -> Zsum l < 2 ^ 63 -> int64_sum l = Zsum l.
Proof.
  intros Hl Hb. unfold int64_sum. rewrite fold_int64_add; auto; lia.
Qed.

(** ** Sums over selections of rows *)

Lemma counts_fit_spec (t : table) :
  counts_fit t = true <->
  nonneg_counts t /\ Zsum (map fire_count t) < 2 ^ 63.
Proof.
  unfold counts_fit, nonneg_counts.
  rewrite andb_true_iff, forallb_forall, Z.ltb_lt, Forall_map, Forall_forall.
  split; intros [H1 H2]; split; auto; intros r Hr.
  - apply Z.leb_le, H1, Hr.
  - apply Z.leb_le, H1, Hr.
Qed.

Lemma nonneg_filter (f : row -> bool) (t : table) :
  nonneg_counts t -> nonneg_counts (filter f t).
Proof.
  unfold nonneg_counts. rewrite !Forall_map, !Forall_forall.
  intros H r Hr. apply filter_In in Hr. apply H, Hr.
Qed.

Lemma Zsum_filter_le (f : row -> bool) (t : table) :
  nonneg_counts t ->
  Zsum (map fire_count (filter f t)) <= Zsum (map fire_count t).
Proof.
  unfold nonneg_counts. induction t as [|r t IH]; simpl; intros H.
  - lia.
  - inversion H; subst. destruct (f r); simpl; specialize (IH H3); lia.
Qed.

(** Two selections that exclude each other take no more than the
    whole. *)
Lemma Zsum_filter_disjoint (f g : row -> bool) (t : table) :
  nonneg_counts t ->
  (forall r, f r = true -> g r = true -> False) ->
  Zsum (map fire_count (filter f t)) + Zsum (map fire_count (filter g t))
  <= Zsum (map fire_count t).
Proof.
  unfold nonneg_counts. intros H Hx.
  induction t as [|r t IH]; simpl.
  - lia.
  - inversion H; subst. specialize (IH H3).
    destruct (f r) eqn:Ef, (g r) eqn:Eg; simpl; try lia.
    exfalso. eauto.
Qed.

Lemma state_rows_exclusive (r : row) :
  String.eqb (state r) "Punjab" = true ->
  String.eqb (state r) "Haryana" = true -> False.
Proof.
  rewrite !String.eqb_eq. intros -> H. discriminate H.
Qed.

Lemma district_entries_counts (rows : table) :
  map entry_fire_count (district_entries rows) = map fire_count rows.
Proof.
  unfold district_entries. rewrite map_map. reflexivity.
Qed.

(** The entry of one date, on a table whose counts fit. *)
Lemma daily_entry_of_adds_up (t : table) (d : acq_date) :
  counts_fit t = true -> totals_add_up (daily_entry_of t d).
Proof.
  intros Hfit. apply counts_fit_spec in Hfit. destruct Hfit as [Hn Hb].
  set (date_data := filter (fun r => date_eqb (ACQ_DATE r) d) t).
  assert (Hd : nonneg_counts date_data) by (apply nonneg_filter, Hn).
  assert (Hdb : Zsum (map fire_count date_data) < 2 ^ 63).
  { pose proof (Zsum_filter_le (fun r => date_eqb (ACQ_DATE r) d) t Hn).
    fold date_data in H. lia. }
  pose proof (Zsum_filter_disjoint
                (fun r => String.eqb (state r) "Punjab")
                (fun r => String.eqb (state r) "Haryana")
                date_data Hd state_rows_exclusive) as Hsplit.
  assert (Hp : nonneg_counts (state_rows "Punjab" date_data))
    by (apply nonneg_filter, Hd).
  assert (Hh : nonneg_counts (state_rows "Haryana" date_data))
    by (apply nonneg_filter, Hd).
  pose proof (Zsum_nonneg _ Hp) as Hp0.
  pose proof (Zsum_nonneg _ Hh) as Hh0.
  fold (state_rows "Punjab" date_data) in Hsplit.
  fold (state_rows "Haryana" date_data) in Hsplit.
  unfold totals_add_up, daily_entry_of. fold date_data. simpl.
  rewrite !district_entries_counts.
  rewrite !int64_sum_exact by (auto; lia).
  unfold int64_add. rewrite int64_wrap_small by lia.
  auto.
Qed.

(** C1.  On a table whose counts fit an int64, every per-date entry of
    the daily document has [combined_total] equal to the sum of the
    [punjab] and [haryana] totals, and each of these totals equal to
    the sum of the [fire_count] values of the region's district list. *)
Theorem daily_totals_add_up (now : string) (t : table) (doc : daily_document) :
  counts_fit t = true ->
  create_json_output now t = Return doc ->
  Forall totals_add_up (daily_data doc).
Proof.
  intros Hfit Hdoc. destruct t as [|r t'].
  - injection Hdoc as <-. constructor.
  - unfold create_json_output in Hdoc.
    destruct (unique_dates_of (r :: t')) as [ds | e | n]; simpl in Hdoc;
      try discriminate.
    injection Hdoc as <-. simpl.
    apply Forall_map, Forall_forall. intros d _.
    apply daily_entry_of_adds_up, Hfit.
Qed.

(** ** Grouping partitions the rows *)

Lemma Zsum_map_add {K : Type} (f g : K -> Z) (ks : list K) :
  Zsum (map (fun k => f k + g k) ks) = Zsum (map f ks) + Zsum (map g ks).
Proof. induction ks as [|k ks IH]; simpl; lia. Qed.

Section Partition.
Context {R K : Type}.
Variable eqb : K -> K -> bool.
Hypothesis eqb_eq : forall a b, eqb a b = true <-> a = b.
Variable key : R -> K.
Variable weight : R -> Z.

Lemma Zsum_indicator (x : K) (c : Z) (ks : list K) :
  NoDup ks ->
  Zsum (map (fun k => if eqb x k then c else 0) ks)
  = if existsb (eqb x) ks then c else 0.
Proof.
  induction 1 as [|k ks Hk Hnd IH]; simpl.
  - reflexivity.
  - rewrite IH. destruct (eqb x k) eqn:E; simpl; [| reflexivity].
    apply eqb_eq in E. subst k.
    destruct (existsb (eqb x) ks) eqn:Ex; [| lia].
    apply (existsb_eqb_In eqb eqb_eq) in Ex. contradiction.
Qed.

Lemma Zsum_groups (ks : list K) (rows : list R) :
  NoDup ks ->
  (forall r, In r rows -> In (key r) ks) ->
  Zsum (map (fun k =>
               Zsum (map weight (filter (fun r => eqb (key r) k) rows)))
          ks)
  = Zsum (map weight rows).
Proof.
  intros Hnd. induction rows as [|r rows IH]; intros Hin.
  - simpl. clear Hnd Hin.
    induction ks as [|k ks IHk]; simpl; [reflexivity | exact IHk].
  - simpl.
    rewrite (map_ext
               (fun k => Zsum (map weight
                  (if eqb (key r) k
                   then r :: filter (fun r0 => eqb (key r0) k) rows
                   else filter (fun r0 => eqb (key r0) k) rows)))
               (fun k => (if eqb (key r) k then weight r else 0)
                         + Zsum (map weight
                             (filter (fun r0 => eqb (key r0) k) rows)))).
    + rewrite Zsum_map_add, Zsum_indicator by exact Hnd.
      rewrite IH by (intros r0 H0; apply Hin; right; exact H0).
      assert (Hk : existsb (eqb (key r)) ks = true).
      { apply (existsb_eqb_In eqb eqb_eq), Hin. left. reflexivity. }
      rewrite Hk. reflexivity.
    + intros k. destruct (eqb (key r) k); simpl; lia.
Qed.
End Partition.

Lemma unique_dates_of_spec (t : table) (ds : list acq_date) :
  unique_dates_of t = Return ds ->
  same_kind (unique date_eqb (map ACQ_DATE t)) = true
  /\ ds = sort_by date_leb (unique date_eqb (map ACQ_DATE t)).
Proof.
  unfold unique_dates_of, sorted_dates.
  destruct (same_kind _); intros H; [| discriminate].
  injection H as <-. auto.
Qed.

Lemma unique_dates_of_NoDup (t : table) (ds : list acq_date) :
  unique_dates_of t = Return ds -> NoDup ds.
Proof.
  intros H. apply unique_dates_of_spec in H. destruct H as [_ ->].
  apply sort_by_NoDup, (unique_NoDup date_eqb date_eqb_eq).
Qed.

Lemma unique_dates_of_In (t : table) (ds : list acq_date) (d : acq_date) :
  unique_dates_of t = Return ds -> (In d ds <-> In d (map ACQ_DATE t)).
Proof.
  intros H. apply unique_dates_of_spec in H. destruct H as [_ ->].
  rewrite sort_by_In. apply (unique_In date_eqb date_eqb_eq).
Qed.

(** With two region labels only, the rows of the two regions are all
    the rows. *)
Lemma Zsum_two_regions (rows : table) :
  two_regions rows = true ->
  Zsum (map fire_count (state_rows "Punjab" rows))
  + Zsum (map fire_count (state_rows "Haryana" rows))
  = Zsum (map fire_count rows).
Proof.
  unfold two_regions, state_rows, region_label.
  induction rows as [|r rows IH]; simpl; intros H.
  - reflexivity.
  - apply andb_true_iff in H. destruct H as [Hr H]. specialize (IH H).
    destruct (String.eqb (state r) "Punjab") eqn:Ep.
    + apply String.eqb_eq in Ep.
      assert (Eh : String.eqb (state r) "Haryana" = false)
        by (rewrite Ep; reflexivity).
      rewrite Eh. simpl. lia.
    + simpl in Hr. rewrite Hr. simpl. lia.
Qed.

Lemma two_regions_filter (f : row -> bool) (rows : table) :
  two_regions rows = true -> two_regions (filter f rows) = true.
Proof.
  unfold two_regions. rewrite !forallb_forall.
  intros H r Hr. apply filter_In in Hr. apply H, Hr.
Qed.

Lemma daily_entry_of_combined (t : table) (d : acq_date) :
  counts_fit t = true -> two_regions t = true ->
  combined_total (daily_entry_of t d)
  = Zsum (map fire_count (filter (fun r => date_eqb (ACQ_DATE r) d) t)).
Proof.
  intros Hfit Htwo.
  destruct (daily_entry_of_adds_up t d Hfit) as (Hc & Hp & Hh).
  rewrite Hc, Hp, Hh. unfold daily_entry_of. simpl.
  rewrite !district_entries_counts.
  apply Zsum_two_regions, two_regions_filter, Htwo.
Qed.

(** C2.  The summary's [total_fire_count] is the sum of the
    [combined_total] values of the daily document made from the same
    aggregate table. *)
Theorem summary_total_is_sum_of_daily (now1 now2 : string) (t : table)
    (doc : daily_document) (sdoc : summary_document) :
  counts_fit t = true ->
  two_regions t = true ->
  create_json_output now1 t = Return doc ->
  create_summary_output now2 t = Return sdoc ->
  total_fire_count sdoc = Zsum (map combined_total (daily_data doc)).
Proof.
  intros Hfit Htwo Hdoc Hsum. destruct t as [|r t'].
  - injection Hdoc as <-. injection Hsum as <-. reflexivity.
  - unfold create_json_output in Hdoc. unfold create_summary_output in Hsum.
    destruct (unique_dates_of (r :: t')) as [ds | e | n] eqn:Hds;
      simpl in Hdoc, Hsum; try discriminate.
    injection Hdoc as <-.
    destruct (date_range_of ds) as [range | e | n]; simpl in Hsum;
      try discriminate.
    injection Hsum as <-. simpl.
    rewrite map_map.
    rewrite (map_ext_in _
               (fun d => Zsum (map fire_count
                  (filter (fun r0 => date_eqb (ACQ_DATE r0) d) (r :: t'))))).
    + rewrite (Zsum_groups date_eqb date_eqb_eq ACQ_DATE fire_count).
      * apply counts_fit_spec in Hfit. destruct Hfit as [Hn Hb].
        apply int64_sum_exact; assumption.
      * eapply unique_dates_of_NoDup, Hds.
      * intros r0 H0. apply (unique_dates_of_In _ _ _ Hds).
        apply in_map, H0.
    + intros d _. apply daily_entry_of_combined; assumption.
Qed.

(** ** The order of the aggregate table *)

Lemma date_compare_refl (d : acq_date) : date_compare d d = Eq.
Proof. apply date_compare_eq. reflexivity. Qed.

Lemma row_leb_le (a b : row) : row_leb a b = true <-> row_le a b.
Proof.
  unfold row_leb, row_le, row_compare.
  destruct (date_compare (ACQ_DATE a) (ACQ_DATE b)) eqn:Ed; simpl.
  - apply date_compare_eq in Ed.
    destruct (String.compare (state a) (state b)) eqn:Es; simpl.
    + apply string_compare_eq in Es.
      destruct (Z.compare_spec (fire_count b) (fire_count a)) as [Ez|Ez|Ez];
        simpl; split; intros H; try reflexivity; try discriminate.
      * right. split; [exact Ed |]. right. split; [exact Es | lia].
      * right. split; [exact Ed |]. right. split; [exact Es | lia].
      * destruct H as [H | (_ & [H | (_ & H)])]; try discriminate. lia.
    + split; auto.
    + split; [discriminate |].
      intros [H | (_ & [H | (H & _)])]; try discriminate.
      apply string_compare_eq in H. congruence.
  - split; auto.
  - split; [discriminate |].
    intros [H | (H & _)]; [discriminate |].
    rewrite H, date_compare_refl in Ed. discriminate.
Qed.

Lemma Timestamp_compare_lt (a b : Timestamp) :
  Timestamp_compare a b = Lt <->
  year a < year b
  \/ (year a = year b
      /\ (month a < month b
          \/ (month a = month b
              /\ (day a < day b
                  \/ (day a = day b /\ time_ns a < time_ns b))))).
Proof.
  unfold Timestamp_compare.
  destruct (Z.compare_spec (year a) (year b));
    destruct (Z.compare_spec (month a) (month b));
    destruct (Z.compare_spec (day a) (day b));
    destruct (Z.compare_spec (time_ns a) (time_ns b));
    simpl; split; intros Hx; try reflexivity; try discriminate; try lia.
Qed.

Lemma string_compare_lt_trans (s t u : string) :
  String.compare s t = Lt -> String.compare t u = Lt ->
  String.compare s u = Lt.
Proof.
  intros H1 H2.
  apply (proj2 (OrderedTypeEx.String_as_OT.cmp_lt s u)).
  eapply OrderedTypeEx.String_as_OT.lt_trans;
    apply (proj1 (OrderedTypeEx.String_as_OT.cmp_lt _ _)); eassumption.
Qed.

Lemma date_compare_lt_trans (a b c : acq_date) :
  date_compare a b = Lt -> date_compare b c = Lt -> date_compare a c = Lt.
Proof.
  destruct a, b, c; simpl; intros H1 H2; try discriminate; try reflexivity.
  - eapply string_compare_lt_trans; eassumption.
  - apply Timestamp_compare_lt. apply Timestamp_compare_lt in H1, H2. lia.
Qed.

Lemma row_le_trans (a b c : row) : row_le a b -> row_le b c -> row_le a c.
Proof.
  unfold row_le.
  intros [H1 | (E1 & H1)] [H2 | (E2 & H2)].
  - left. eapply date_compare_lt_trans; eassumption.
  - left. rewrite <- E2. exact H1.
  - left. rewrite E1. exact H2.
  - right. split; [congruence |].
    destruct H1 as [H1 | (S1 & H1)], H2 as [H2 | (S2 & H2)].
    + left. eapply string_compare_lt_trans; eassumption.
    + left. rewrite <- S2. exact H1.
    + left. rewrite S1. exact H2.
    + right. split; [congruence | lia].
Qed.

(** ** The aggregator *)

Lemma group_sizes_eq (pts : list matched_point) :
  group_sizes pts
  = map (fun k => mkRow (fst k) (fst (snd k)) (snd (snd k))
                    (Z.of_nat (count_key k pts)))
      (sort_by key_leb (unique key_eqb (map key_of_point pts))).
Proof.
  unfold group_sizes, groupby. rewrite map_map. reflexivity.
Qed.

Lemma group_sizes_keys (pts : list matched_point) :
  map key_of_row (group_sizes pts)
  = sort_by key_leb (unique key_eqb (map key_of_point pts)).
Proof.
  rewrite group_sizes_eq, map_map.
  rewrite <- (map_id (sort_by _ _)) at 2.
  apply map_ext. intros [d [s n]]. reflexivity.
Qed.

Lemma group_sizes_In_key (pts : list matched_point) (k : group_key) :
  In k (map key_of_row (group_sizes pts)) <-> In k (map key_of_point pts).
Proof.
  rewrite group_sizes_keys, sort_by_In.
  apply (unique_In key_eqb key_eqb_eq).
Qed.

Lemma group_sizes_NoDup (pts : list matched_point) :
  NoDup (map key_of_row (group_sizes pts)).
Proof.
  rewrite group_sizes_keys.
  apply sort_by_NoDup, (unique_NoDup key_eqb key_eqb_eq).
Qed.

Lemma count_key_pos (pts : list matched_point) (k : group_key) :
  In k (map key_of_point pts) -> (1 <= count_key k pts)%nat.
Proof.
  intros H. apply in_map_iff in H. destruct H as (p & <- & Hp).
  unfold count_key.
  assert (Hin : In p (filter (fun q => key_eqb (key_of_point q)
                                         (key_of_point p)) pts)).
  { apply filter_In. split; [exact Hp | apply key_eqb_eq; reflexivity]. }
  destruct (filter _ pts); [destruct Hin | simpl; lia].
Qed.

Lemma group_sizes_count (pts : list matched_point) (r : row) :
  In r (group_sizes pts) ->
  fire_count r = Z.of_nat (count_key (key_of_row r) pts)
  /\ 1 <= fire_count r.
Proof.
  intros Hr.
  assert (Hk : In (key_of_row r) (map key_of_point pts)).
  { apply group_sizes_In_key, in_map, Hr. }
  rewrite group_sizes_eq in Hr. apply in_map_iff in Hr.
  destruct Hr as ([d [s n]] & <- & _). simpl in *.
  split; [reflexivity |].
  apply count_key_pos in Hk. unfold key_of_row in Hk. simpl in Hk. lia.
Qed.

Lemma sort_values_spec (t t' : table) :
  sort_values t = Return t' ->
  same_kind (map ACQ_DATE t) = true /\ t' = sort_by row_leb t.
Proof.
  unfold sort_values. destruct (same_kind _); intros H; [| discriminate].
  injection H as <-. auto.
Qed.

Lemma aggregate_perm (pts : list matched_point) (t : table) :
  aggregate pts = Return t -> Permutation t (group_sizes pts).
Proof.
  intros H. apply sort_values_spec in H. destruct H as [_ ->].
  apply sort_by_perm.
Qed.

Lemma aggregate_NoDup_keys (pts : list matched_point) (t : table) :
  aggregate pts = Return t -> NoDup (map key_of_row t).
Proof.
  intros Ht. eapply Permutation_NoDup; [| apply group_sizes_NoDup].
  apply Permutation_map, Permutation_sym, (aggregate_perm _ _ Ht).
Qed.

Lemma Sorted_impl {A : Type} (P Q : A -> A -> Prop) (l : list A) :
  (forall a b, P a b -> Q a b) -> Sorted P l -> Sorted Q l.
Proof.
  intros HPQ. induction 1 as [|x l Hs IH Hh]; constructor; [exact IH |].
  destruct Hh; constructor. auto.
Qed.

(** C3.  The table the aggregator returns has one row per
    (acquisition date, region, sub-region) that occurs among the matched
    points, carrying the number of points of that key, and its rows
    stand in ascending date, then ascending region label, then
    descending count: every row may stand before every later row. *)
Theorem aggregate_keyed_and_sorted (pts : list matched_point) (t : table) :
  aggregate pts = Return t ->
  NoDup (map key_of_row t)
  /\ (forall k, In k (map key_of_row t) <-> In k (map key_of_point pts))
  /\ (forall r, In r t ->
        fire_count r = Z.of_nat (count_key (key_of_row r) pts))
  /\ StronglySorted row_le t.
Proof.
  intros Ht. pose proof (aggregate_perm pts t Ht) as Hperm.
  repeat split.
  - apply (aggregate_NoDup_keys pts t Ht).
  - intros H. apply group_sizes_In_key.
    eapply Permutation_in; [apply Permutation_map, Hperm | exact H].
  - intros H. apply group_sizes_In_key in H.
    eapply Permutation_in;
      [apply Permutation_map, Permutation_sym, Hperm | exact H].
  - intros r Hr. apply group_sizes_count.
    eapply Permutation_in; [exact Hperm | exact Hr].
  - apply sort_values_spec in Ht. destruct Ht as [_ ->].
    apply Sorted_StronglySorted.
    + intros a b c. apply row_le_trans.
    + eapply Sorted_impl; [| apply sort_by_sorted, row_leb_total].
      intros a b. apply row_leb_le.
Qed.

(** ** Columns of one kind *)

Lemma same_kind_iff (l : list acq_date) :
  same_kind l = true <->
  exists b, forall x, In x l -> isinstance_str x = b.
Proof.
  destruct l as [|d r]; simpl.
  - split; [| reflexivity]. intros _. exists true. intros x [].
  - rewrite forallb_forall. split.
    + intros H. exists (isinstance_str d). intros x [<- | Hx]; [reflexivity |].
      apply Bool.eqb_prop, H, Hx.
    + intros [b Hb] x Hx.
      rewrite (Hb x (or_intror Hx)), (Hb d (or_introl eq_refl)).
      apply Bool.eqb_reflx.
Qed.

Lemma same_kind_incl (l l' : list acq_date) :
  (forall x, In x l' -> In x l) -> same_kind l = true -> same_kind l' = true.
Proof.
  rewrite !same_kind_iff. intros Hi [b Hb]. exists b. auto.
Qed.

Lemma last_cons_In {A : Type} (x : A) (l : list A) (d : A) :
  In (List.last (x :: l) d) (x :: l).
Proof.
  revert x. induction l as [|y r IH]; intros x.
  - left. reflexivity.
  - right. change (List.last (x :: y :: r) d) with (List.last (y :: r) d).
    apply IH.
Qed.

Lemma unique_dates_of_returns (t : table) :
  same_kind (map ACQ_DATE t) = true ->
  exists ds, unique_dates_of t = Return ds.
Proof.
  intros H. unfold unique_dates_of, sorted_dates.
  rewrite (same_kind_incl (map ACQ_DATE t)); [eauto | | exact H].
  intros x. apply (unique_In date_eqb date_eqb_eq).
Qed.

Lemma date_range_of_returns (ds : list acq_date) :
  same_kind ds = true -> exists range, date_range_of ds = Return range.
Proof.
  intros H. destruct ds as [|first rest]; [simpl; eauto |].
  unfold date_range_of.
  set (final := List.last (first :: rest) first).
  assert (Hf : isinstance_str final = isinstance_str first).
  { apply same_kind_iff in H. destruct H as [b Hb].
    rewrite (Hb first (or_introl eq_refl)). apply Hb.
    apply last_cons_In. }
  destruct first, final; simpl in *; try discriminate; eauto.
Qed.

(** On a table whose dates are of one kind both documents are made. *)
Lemma create_json_output_returns (now : string) (t : table) :
  same_kind (map ACQ_DATE t) = true ->
  exists doc, create_json_output now t = Return doc.
Proof.
  intros H. destruct t as [|r t']; [simpl; eauto |].
  unfold create_json_output.
  destruct (unique_dates_of_returns _ H) as [ds ->]. simpl. eauto.
Qed.

Lemma create_summary_output_returns (now : string) (t : table) :
  same_kind (map ACQ_DATE t) = true ->
  exists sdoc, create_summary_output now t = Return sdoc.
Proof.
  intros H. destruct t as [|r t']; [simpl; eauto |].
  unfold create_summary_output.
  destruct (unique_dates_of_returns _ H) as [ds Hds]. rewrite Hds. simpl.
  destruct (date_range_of_returns ds) as [range ->]; [| simpl; eauto].
  apply unique_dates_of_spec in Hds. destruct Hds as [Hk ->].
  eapply same_kind_incl; [| exact Hk].
  intros x. apply sort_by_In.
Qed.

Lemma group_sizes_dates (pts : list matched_point) (d : acq_date) :
  In d (map ACQ_DATE (group_sizes pts)) -> In d (map mp_ACQ_DATE pts).
Proof.
  intros H. apply in_map_iff in H. destruct H as (r & <- & Hr).
  assert (Hk : In (key_of_row r) (map key_of_point pts)).
  { apply group_sizes_In_key, in_map, Hr. }
  apply in_map_iff in Hk. destruct Hk as (p & E & Hp).
  apply in_map_iff. exists p. split; [| exact Hp].
  unfold key_of_point, key_of_row in E. congruence.
Qed.

(** Matched points whose dates are of one kind are aggregated, and the
    table has dates of one kind. *)
Lemma aggregate_returns (pts : list matched_point) :
  same_kind (map mp_ACQ_DATE pts) = true ->
  exists t, aggregate pts = Return t.
Proof.
  intros H. unfold aggregate, sort_values.
  rewrite (same_kind_incl (map mp_ACQ_DATE pts)); [eauto | | exact H].
  apply group_sizes_dates.
Qed.

Lemma aggregate_same_kind (pts : list matched_point) (t : table) :
  aggregate pts = Return t -> same_kind (map ACQ_DATE t) = true.
Proof.
  intros H. apply sort_values_spec in H. destruct H as [Hk ->].
  eapply same_kind_incl; [| exact Hk].
  intros x Hx. eapply Permutation_in; [| exact Hx].
  apply Permutation_map, sort_by_perm.
Qed.

(** ** Counts of the aggregate table *)

Lemma Zsum_perm (l l' : list Z) : Permutation l l' -> Zsum l = Zsum l'.
Proof. induction 1; simpl; lia. Qed.

Lemma Zsum_ones {A : Type} (l : list A) :
  Zsum (map (fun _ => 1) l) = Z.of_nat (List.length l).
Proof.
  induction l as [|x l IH]; [reflexivity |].
  cbn [map Zsum fold_right List.length]. fold (Zsum (map (fun _ : A => 1) l)).
  rewrite IH. lia.
Qed.

(** The counts of the grouped table add up to the number of matched
    points. *)
Lemma group_sizes_total (pts : list matched_point) :
  Zsum (map fire_count (group_sizes pts)) = Z.of_nat (List.length pts).
Proof.
  rewrite group_sizes_eq, map_map. simpl.
  rewrite <- (Zsum_ones pts).
  rewrite <- (Zsum_groups key_eqb key_eqb_eq key_of_point (fun _ => 1)
                (sort_by key_leb (unique key_eqb (map key_of_point pts)))).
  - f_equal. apply map_ext. intros k. unfold count_key.
    symmetry. apply Zsum_ones.
  - apply sort_by_NoDup, (unique_NoDup key_eqb key_eqb_eq).
  - intros p Hp. apply sort_by_In, (unique_In key_eqb key_eqb_eq).
    apply in_map, Hp.
Qed.

Lemma aggregate_row_count (pts : list matched_point) (t : table) (r : row) :
  aggregate pts = Return t -> In r t ->
  fire_count r = Z.of_nat (count_key (key_of_row r) pts)
  /\ 1 <= fire_count r.
Proof.
  intros Ht Hr. apply group_sizes_count.
  eapply Permutation_in; [apply (aggregate_perm _ _ Ht) | exact Hr].
Qed.

Lemma aggregate_total (pts : list matched_point) (t : table) :
  aggregate pts = Return t ->
  Zsum (map fire_count t) = Z.of_nat (List.length pts).
Proof.
  intros Ht. rewrite <- group_sizes_total.
  apply Zsum_perm, Permutation_map, (aggregate_perm _ _ Ht).
Qed.

(** The table of fewer than 2^63 matched points has counts that fit. *)
Lemma aggregate_counts_fit (pts : list matched_point) (t : table) :
  Z.of_nat (List.length pts) < 2 ^ 63 ->
  aggregate pts = Return t -> counts_fit t = true.
Proof.
  intros Hlen Ht. apply counts_fit_spec. split.
  - unfold nonneg_counts. rewrite Forall_map, Forall_forall.
    intros r Hr. destruct (aggregate_row_count _ _ _ Ht Hr). lia.
  - rewrite (aggregate_total _ _ Ht). exact Hlen.
Qed.

Lemma NoDup_map_filter {A B : Type} (g : A -> B) (f : A -> bool)
    (l : list A) :
  NoDup (map g l) -> NoDup (map g (filter f l)).
Proof.
  induction l as [|x l IH]; simpl; intros H; [constructor |].
  inversion H as [|? ? Hx Hl]; subst.
  destruct (f x); simpl; [| auto].
  constructor; [| auto].
  intros Hin. apply Hx. apply in_map_iff in Hin.
  destruct Hin as (y & E & Hy). apply filter_In in Hy.
  apply in_map_iff. exists y. tauto.
Qed.

Lemma region_rows_key (t : table) (d : acq_date) (label : string) (r : row) :
  In r (state_rows label (filter (fun r => date_eqb (ACQ_DATE r) d) t)) ->
  In r t /\ key_of_row r = (d, (label, dtname r)).
Proof.
  unfold state_rows. rewrite !filter_In.
  intros [[Hr Hd] Hs]. apply date_eqb_eq in Hd. apply String.eqb_eq in Hs.
  split; [exact Hr |]. unfold key_of_row. congruence.
Qed.

(** The district list of one region and one date. *)
Lemma region_of_listing (pts : list matched_point) (t : table)
    (d : acq_date) (label : string) :
  aggregate pts = Return t ->
  region_listing pts d label
    (region_of
       (state_rows label (filter (fun r => date_eqb (ACQ_DATE r) d) t))).
Proof.
  intros Ht.
  set (rows := state_rows label
                 (filter (fun r => date_eqb (ACQ_DATE r) d) t)).
  assert (Hlisted : forall x, In x (districts (region_of rows)) ->
            1 <= entry_fire_count x
            /\ entry_fire_count x
               = Z.of_nat (count_key (d, (label, district x)) pts)).
  { simpl. unfold district_entries. intros x Hx.
    apply in_map_iff in Hx. destruct Hx as (r & <- & Hr). simpl.
    apply region_rows_key in Hr. destruct Hr as [Hr Hk].
    destruct (aggregate_row_count _ _ _ Ht Hr) as [Hc Hp].
    rewrite Hk in Hc. auto. }
  split; [| split].
  - simpl. unfold district_entries. rewrite map_map. simpl.
    apply (NoDup_map_inv (fun name => (d, (label, name)))).
    rewrite map_map.
    rewrite (map_ext_in _ key_of_row).
    + unfold rows, state_rows. do 2 apply NoDup_map_filter.
      apply (aggregate_NoDup_keys pts t Ht).
    + intros r Hr. symmetry. apply (region_rows_key t d label r Hr).
  - exact Hlisted.
  - intros name Hzero Hin. apply in_map_iff in Hin.
    destruct Hin as (x & <- & Hx).
    destruct (Hlisted x Hx) as [Hpos Heq]. rewrite Hzero in Heq.
    simpl in Heq. lia.
Qed.

Lemma aggregate_two_regions (pts : list matched_point) (t : table) :
  points_labelled pts -> aggregate pts = Return t -> two_regions t = true.
Proof.
  unfold points_labelled, two_regions. rewrite Forall_forall, forallb_forall.
  intros Hl Ht r Hr.
  assert (Hk : In (key_of_row r) (map key_of_point pts)).
  { apply group_sizes_In_key.
    eapply Permutation_in;
      [apply Permutation_map, (aggregate_perm _ _ Ht) | apply in_map, Hr]. }
  apply in_map_iff in Hk. destruct Hk as (p & E & Hp).
  unfold key_of_point, key_of_row in E.
  replace (state r) with (mp_state p) by congruence. apply Hl, Hp.
Qed.

(** ** The top districts *)

Lemma sort_values_desc_perm {K : Type} (l : list (K * Z)) :
  Permutation (sort_values_desc l) l.
Proof.
  unfold sort_values_desc.
  eapply Permutation_trans; [apply Permutation_sym, Permutation_rev |].
  eapply Permutation_trans; [apply sort_by_perm |].
  apply Permutation_sym, Permutation_rev.
Qed.

Lemma In_firstn {A : Type} (n : nat) (l : list A) (x : A) :
  In x (firstn n l) -> In x l.
Proof.
  intros H. rewrite <- (firstn_skipn n l). apply in_or_app. left. exact H.
Qed.

Lemma top_districts_of_In (t : table) (x : top_district) :
  In x (top_districts_of t) ->
  In ((top_state x, top_district_name x), total_fires x) (district_sums t).
Proof.
  unfold top_districts_of, top_districts_with. intros H.
  apply in_map_iff in H.
  destruct H as ([[s n] c] & <- & H). simpl.
  apply In_firstn in H.
  eapply Permutation_in; [apply sort_values_desc_perm | exact H].
Qed.

(** An entry of the grouped sums is the int64 sum of a group that is
    not empty. *)
Lemma district_sums_In (t : table) (k : string * string) (c : Z) :
  In (k, c) (district_sums t) ->
  c = int64_sum (map fire_count
        (filter (fun r => pair_eqb (state r, dtname r) k) t))
  /\ exists r, In r (filter (fun r => pair_eqb (state r, dtname r) k) t).
Proof.
  unfold district_sums, groupby. intros H. apply in_map_iff in H.
  destruct H as (k' & E & Hk). injection E as -> <-.
  split; [reflexivity |].
  apply sort_by_In, (unique_In pair_eqb pair_eqb_eq), in_map_iff in Hk.
  destruct Hk as (r & <- & Hr). exists r.
  apply filter_In. split; [exact Hr | apply pair_eqb_eq; reflexivity].
Qed.

Lemma Zsum_ge_member (rows : table) (r : row) :
  nonneg_counts rows -> In r rows ->
  fire_count r <= Zsum (map fire_count rows).
Proof.
  unfold nonneg_counts. induction rows as [|x rows IH]; simpl; intros H Hr.
  - destruct Hr.
  - inversion H as [|? ? Hx Hrest]; subst.
    pose proof (Zsum_nonneg _ Hrest) as Hn. fold (Zsum (map fire_count rows)).
    destruct Hr as [-> | Hr]; [lia |]. specialize (IH Hrest Hr). lia.
Qed.

(** C10.  In the documents made from the table of the matched points
    (fewer than 2^63 of them), every district listed under a date and a
    region carries the number of matched points of its key, which is at
    least one, so that a key without matched points is listed nowhere;
    no district is listed twice under the same date and region; and
    every entry of [top_districts] has a total of at least one. *)
Theorem emitted_counts_positive (pts : list matched_point) (t : table)
    (now1 now2 : string) (doc : daily_document) (sdoc : summary_document) :
  Z.of_nat (List.length pts) < 2 ^ 63 ->
  aggregate pts = Return t ->
  create_json_output now1 t = Return doc ->
  create_summary_output now2 t = Return sdoc ->
  (exists ds,
      unique_dates_of t = Return ds
      /\ Forall2 (fun d e => region_listing pts d "Punjab" (punjab e)
                             /\ region_listing pts d "Haryana" (haryana e))
           ds (daily_data doc))
  /\ Forall (fun x => 1 <= total_fires x) (top_districts sdoc).
Proof.
  intros Hlen Ht Hdoc Hsum.
  destruct (unique_dates_of_returns t (aggregate_same_kind _ _ Ht))
    as [ds Hds].
  split.
  - exists ds. split; [exact Hds |].
    assert (Hdaily : daily_data doc = map (daily_entry_of t) ds).
    { destruct t as [|r t'].
      - injection Hdoc as <-. simpl.
        apply unique_dates_of_spec in Hds. destruct Hds as [_ ->].
        reflexivity.
      - unfold create_json_output in Hdoc. rewrite Hds in Hdoc.
        simpl in Hdoc. injection Hdoc as <-. reflexivity. }
    rewrite Hdaily. clear Hdaily Hds.
    induction ds as [|d ds IH]; simpl; constructor; [| exact IH].
    split; apply region_of_listing; exact Ht.
  - apply Forall_forall. intros x Hx.
    assert (Htop : In x (top_districts_of t)).
    { destruct t as [|r t'].
      - injection Hsum as <-. destruct Hx.
      - unfold create_summary_output in Hsum. rewrite Hds in Hsum.
        simpl in Hsum.
        destruct (date_range_of ds); simpl in Hsum; try discriminate.
        injection Hsum as <-. exact Hx. }
    apply top_districts_of_In, district_sums_In in Htop.
    destruct Htop as [-> (r & Hr)].
    pose proof (aggregate_counts_fit _ _ Hlen Ht) as Hfit.
    apply counts_fit_spec in Hfit. destruct Hfit as [Hn Hb].
    set (f := fun r0 : row =>
                pair_eqb (state r0, dtname r0)
                  (top_state x, top_district_name x)) in *.
    pose proof (nonneg_filter f t Hn) as Hnf.
    pose proof (Zsum_filter_le f t Hn) as Hle.
    rewrite int64_sum_exact by (auto; lia).
    pose proof (Zsum_ge_member _ r Hnf Hr) as Hge.
    apply filter_In in Hr. destruct Hr as [Hr _].
    destruct (aggregate_row_count _ _ _ Ht Hr). lia.
Qed.

(** ** The order of the top districts *)

Lemma StronglySorted_snoc {A : Type} (R : A -> A -> Prop) (l : list A)
    (x : A) :
  StronglySorted R l -> Forall (fun y => R y x) l ->
  StronglySorted R (l ++ [x]).
Proof.
  induction 1 as [|y l Hs IH Hy]; intros Hx; simpl.
  - repeat constructor.
  - inversion Hx; subst. constructor; [auto |].
    apply Forall_app. split; [exact Hy | repeat constructor; assumption].
Qed.

Lemma StronglySorted_rev {A : Type} (R : A -> A -> Prop) (l : list A) :
  StronglySorted R l -> StronglySorted (fun a b => R b a) (rev l).
Proof.
  induction 1 as [|x l Hs IH Hx]; simpl; [constructor |].
  apply StronglySorted_snoc; [exact IH |].
  apply Forall_rev. exact Hx.
Qed.

Lemma StronglySorted_firstn {A : Type} (R : A -> A -> Prop) (n : nat)
    (l : list A) :
  StronglySorted R l -> StronglySorted R (firstn n l).
Proof.
  intros H. revert n. induction H as [|x l Hs IH Hx]; intros [|n]; simpl;
    try constructor; [apply IH |].
  rewrite Forall_forall in *. intros y Hy. apply Hx.
  eapply In_firstn, Hy.
Qed.

Lemma StronglySorted_map {A B : Type} (R : B -> B -> Prop) (f : A -> B)
    (l : list A) :
  StronglySorted (fun a b => R (f a) (f b)) l -> StronglySorted R (map f l).
Proof.
  induction 1 as [|x l Hs IH Hx]; simpl; constructor; [exact IH |].
  apply Forall_map. exact Hx.
Qed.

Lemma sort_values_desc_sorted {K : Type} (l : list (K * Z)) :
  StronglySorted (fun a b => snd b <= snd a) (sort_values_desc l).
Proof.
  unfold sort_values_desc.
  apply (StronglySorted_rev (fun a b : K * Z => snd a <= snd b)).
  apply Sorted_StronglySorted.
  - intros a b c. apply Z.le_trans.
  - eapply Sorted_impl;
      [| apply (sort_by_sorted (fun a b : K * Z => snd a <=? snd b))].
    + intros a b. apply Z.leb_le.
    + intros a b. destruct (Z.le_ge_cases (snd a) (snd b)) as [H | H];
        [left | right]; apply Z.leb_le; exact H.
Qed.

Lemma top_districts_of_sorted (t : table) :
  (List.length (top_districts_of t) <= 20)%nat
  /\ StronglySorted total_ge (top_districts_of t).
Proof.
  unfold top_districts_of, top_districts_with. split.
  - rewrite length_map. apply firstn_le_length.
  - apply StronglySorted_map, StronglySorted_firstn.
    exact (sort_values_desc_sorted (district_sums t)).
Qed.

(** C4, as the code has it.  [top_districts] has at most 20 entries and
    its totals descend: every entry has a total no smaller than that of
    every later entry.  (The order of entries with equal totals is left
    to the sort of pandas; it is not the order of first encounter.) *)
Theorem top_districts_bounded_descending (now : string) (t : table)
    (sdoc : summary_document) :
  create_summary_output now t = Return sdoc ->
  (List.length (top_districts sdoc) <= 20)%nat
  /\ StronglySorted total_ge (top_districts sdoc).
Proof.
  intros Hsum. destruct t as [|r t'].
  - injection Hsum as <-. simpl. split; [lia | constructor].
  - unfold create_summary_output in Hsum.
    destruct (unique_dates_of (r :: t')); simpl in Hsum; try discriminate.
    destruct (date_range_of a); simpl in Hsum; try discriminate.
    injection Hsum as <-. simpl. apply top_districts_of_sorted.
Qed.

(** C4 as stated fails on the table of [tie_points]: Patiala is met
    first in the table, Ludhiana has the same total, and Ludhiana is
    listed first. *)
Lemma top_districts_ties_counterexample :
  aggregate tie_points = Return tie_table
  /\ exists sdoc,
       create_summary_output "2024-01-03T00:00:00Z" tie_table = Return sdoc
       /\ top_districts sdoc
          = [ mkTopDistrict "Punjab" "Ludhiana" 2;
              mkTopDistrict "Punjab" "Patiala" 2 ]
       /\ ~ ties_by_first_encounter tie_table (top_districts sdoc).
Proof.
  split; [vm_compute; reflexivity |].
  eexists. split; [vm_compute; reflexivity |].
  split; [reflexivity |].
  intros H.
  specialize (H [] (mkTopDistrict "Punjab" "Ludhiana" 2) []
                (mkTopDistrict "Punjab" "Patiala" 2) [] eq_refl eq_refl).
  vm_compute in H. lia.
Qed.

(** Whatever order the sort leaves among equal totals, it is not the
    order of first encounter: the grouped sums of [tie_table] and of
    [tie_table_swapped] are the same frame, so both tables get the same
    list, while the districts are first met in opposite orders. *)
Lemma tie_order_not_first_encounter
    (sorter : list ((string * string) * Z) -> list ((string * string) * Z)) :
  (forall l, Permutation l (sorter l)) ->
  ~ (ties_by_first_encounter tie_table
       (top_districts_with sorter tie_table)
     /\ ties_by_first_encounter tie_table_swapped
          (top_districts_with sorter tie_table_swapped)).
Proof.
  intros Hperm [H1 H2]. unfold top_districts_with in H1, H2.
  change (district_sums tie_table_swapped)
    with (district_sums tie_table) in H2.
  change (district_sums tie_table)
    with [(("Punjab", "Ludhiana"), 2); (("Punjab", "Patiala"), 2)] in H1, H2.
  destruct (Permutation_length_2_inv
              (Hperm [(("Punjab", "Ludhiana"), 2);
                      (("Punjab", "Patiala"), 2)])) as [E | E];
    rewrite E in H1, H2; simpl in H1, H2.
  - specialize (H1 [] _ [] _ [] eq_refl eq_refl). vm_compute in H1. lia.
  - specialize (H2 [] _ [] _ [] eq_refl eq_refl). vm_compute in H2. lia.
Qed.

(** ** Dates in the documents *)

Lemma is_digit_digit (n : Z) : 0 <= n < 10 -> is_digit (digit n) = true.
Proof.
  intros H. unfold digit.
  assert (Hk : (Z.to_nat n < 10)%nat) by lia.
  generalize dependent (Z.to_nat n). intros k Hk.
  do 10 (destruct k as [|k]; [reflexivity |]). lia.
Qed.

Lemma calendar_shape (y1 y2 y3 y4 m1 m2 d1 d2 : ascii) :
  is_digit y1 = true -> is_digit y2 = true -> is_digit y3 = true ->
  is_digit y4 = true -> is_digit m1 = true -> is_digit m2 = true ->
  is_digit d1 = true -> is_digit d2 = true ->
  is_calendar_date_string
    (String y1 (String y2 (String y3 (String y4 (String "-"
      (String m1 (String m2 (String "-"
        (String d1 (String d2 EmptyString)))))))))) = true.
Proof.
  intros H1 H2 H3 H4 H5 H6 H7 H8. unfold is_calendar_date_string.
  cbn [list_ascii_of_string].
  rewrite H1, H2, H3, H4, H5, H6, H7, H8. reflexivity.
Qed.

Lemma strftime_Ymd_shape (ts : Timestamp) :
  valid_Timestamp ts = true ->
  is_calendar_date_string (strftime_Ymd ts) = true.
Proof.
  unfold valid_Timestamp. rewrite !andb_true_iff, !Z.leb_le.
  intros [[[[[Hy1 Hy2] Hm1] Hm2] Hd1] Hd2].
  unfold strftime_Ymd, pad4, pad2. cbn [String.append].
  apply calendar_shape; apply is_digit_digit;
    try (apply Z.mod_pos_bound; lia);
    split; try (apply Z.div_pos; lia);
    apply Z.div_lt_upper_bound; lia.
Qed.

Lemma renders_date_str_of (d : acq_date) : renders d (date_str_of d).
Proof.
  destruct d as [s | ts]; simpl; [reflexivity |].
  split; [reflexivity | apply strftime_Ymd_shape].
Qed.

Lemma date_range_of_emitted (t : table) (ds : list acq_date)
    (range : date_range_t) :
  (forall d, In d ds -> In d (map ACQ_DATE t)) ->
  ds <> [] ->
  date_range_of ds = Return range ->
  exists s e,
    range_start range = Some s /\ range_end range = Some e
    /\ emitted_date t s /\ emitted_date t e.
Proof.
  intros Hin Hne. destruct ds as [|first rest]; [congruence |].
  unfold date_range_of.
  set (final := List.last (first :: rest) first).
  assert (Hfirst : In first (map ACQ_DATE t)) by (apply Hin; left; auto).
  assert (Hfinal : In final (map ACQ_DATE t))
    by (apply Hin, last_cons_In).
  destruct first as [s | ts], final as [s' | ts']; simpl;
    intros H; try discriminate; injection H as <-; simpl.
  - exists s, s'. repeat split; [exists (DateStr s) | exists (DateStr s')];
      simpl; auto.
  - exists (strftime_Ymd ts), (strftime_Ymd ts'). repeat split;
      [exists (DateObj ts) | exists (DateObj ts')];
      (split; [assumption | apply (renders_date_str_of (DateObj _))]).
Qed.

(** C6, as the code has it.  Every [date] of the daily document, and
    the [start] and [end] of the summary's [date_range], is an upstream
    date of the table, shown as it is when it is a string and as its
    calendar date "YYYY-MM-DD" when it is a date object. *)
Theorem dates_render_upstream (now1 now2 : string) (t : table)
    (doc : daily_document) (sdoc : summary_document) :
  t <> [] ->
  create_json_output now1 t = Return doc ->
  create_summary_output now2 t = Return sdoc ->
  Forall (fun e => emitted_date t (date e)) (daily_data doc)
  /\ exists s e,
       range_start (date_range sdoc) = Some s
       /\ range_end (date_range sdoc) = Some e
       /\ emitted_date t s /\ emitted_date t e.
Proof.
  intros Hne Hdoc Hsum. destruct t as [|r t']; [congruence |].
  unfold create_json_output in Hdoc. unfold create_summary_output in Hsum.
  destruct (unique_dates_of (r :: t')) as [ds | e | n] eqn:Hds;
    simpl in Hdoc, Hsum; try discriminate.
  injection Hdoc as <-.
  destruct (date_range_of ds) as [range | e | n] eqn:Hrange;
    simpl in Hsum; try discriminate.
  injection Hsum as <-. simpl.
  assert (Hin : forall d, In d ds -> In d (map ACQ_DATE (r :: t')))
    by (intros d; apply (unique_dates_of_In _ _ _ Hds)).
  split.
  - apply Forall_map, Forall_forall. intros d Hd.
    exists d. split; [apply Hin, Hd | apply renders_date_str_of].
  - apply (date_range_of_emitted (r :: t') ds range Hin); [| exact Hrange].
    intros ->.
    assert (H0 : In (ACQ_DATE r) []).
    { apply (unique_dates_of_In _ _ _ Hds). left. reflexivity. }
    destruct H0.
Qed.

(** C6 as stated fails on [slash_table]: the upstream string
    "2024/01/05" goes into both documents as it is. *)
Lemma date_strings_counterexample :
  exists doc sdoc,
    create_json_output "2024-01-06T00:00:00Z" slash_table = Return doc
    /\ create_summary_output "2024-01-06T00:00:00Z" slash_table = Return sdoc
    /\ map date (daily_data doc) = ["2024/01/05"]
    /\ range_start (date_range sdoc) = Some "2024/01/05"
    /\ range_end (date_range sdoc) = Some "2024/01/05"
    /\ is_calendar_date_string "2024/01/05" = false.
Proof.
  do 2 eexists. repeat split; vm_compute; reflexivity.
Qed.

(** ** Two runs of the output stages *)

(** C9.  Two runs of the output stages on the same aggregate table give
    the same daily document and the same summary document once the
    [last_updated] field is set aside (and fail alike when they
    fail). *)
Theorem outputs_equal_up_to_last_updated (now1 now2 : string) (t : table) :
  omap without_last_updated (create_json_output now1 t)
  = omap without_last_updated (create_json_output now2 t)
  /\ omap summary_without_last_updated (create_summary_output now1 t)
     = omap summary_without_last_updated (create_summary_output now2 t).
Proof.
  destruct t as [|r t']; [split; reflexivity |].
  unfold create_json_output, create_summary_output.
  destruct (unique_dates_of (r :: t')) as [ds | e | n]; simpl;
    [| split; reflexivity | split; reflexivity].
  split; [reflexivity |].
  destruct (date_range_of ds); reflexivity.
Qed.

(** ** The stages of the run *)

Section PipelineFacts.

Variables geometry polygon crs : Type.
Variable crs_eq_dec : forall a b : crs, {a = b} + {a <> b}.
Variable transform : crs -> crs -> geometry -> geometry.
Variable within : geometry -> polygon -> bool.
Variable concat_crs : option crs -> option crs -> outcome (option crs).

Lemma option_crs_eqb_eq (a b : option crs) :
  option_crs_eqb crs_eq_dec a b = true <-> a = b.
Proof.
  destruct a as [x|], b as [y|]; simpl; try (split; congruence).
  destruct (crs_eq_dec x y); split; congruence.
Qed.

(** C8.  When the reference systems of the points and of the
    districts are equal, the points come back as they are; when they
    are two different reference systems, every point is taken through
    the forward transform into the system of the districts, and the
    number of points stays the same. *)
Theorem crs_reconciled (points : point_frame geometry crs)
    (districts : district_frame polygon crs) :
  (point_crs points = district_crs districts ->
   reconcile_crs crs_eq_dec transform points districts = Return points)
  /\ (forall src dst,
        point_crs points = Some src ->
        district_crs districts = Some dst ->
        src <> dst ->
        exists points',
          reconcile_crs crs_eq_dec transform points districts
          = Return points'
          /\ point_crs points' = district_crs districts
          /\ point_rows points'
             = map (reproject transform src dst) (point_rows points)
          /\ List.length (point_rows points')
             = List.length (point_rows points)).
Proof.
  unfold reconcile_crs. split.
  - intros E. apply option_crs_eqb_eq in E. rewrite E. reflexivity.
  - intros src dst Hs Hd Hne.
    assert (E : option_crs_eqb crs_eq_dec (point_crs points)
                  (district_crs districts) = false).
    { destruct (option_crs_eqb _ _ _) eqn:E; [| reflexivity].
      apply option_crs_eqb_eq in E. congruence. }
    rewrite E. simpl. unfold to_crs. rewrite Hs, Hd.
    eexists. split; [reflexivity |]. simpl.
    split; [reflexivity |]. split; [reflexivity |].
    apply length_map.
Qed.

(** A frame without reference system is not reprojected: the call
    raises. *)
Lemma reconcile_crs_undefined (points : point_frame geometry crs)
    (districts : district_frame polygon crs) :
  point_crs points <> district_crs districts ->
  point_crs points = None \/ district_crs districts = None ->
  reconcile_crs crs_eq_dec transform points districts = Raise ValueError.
Proof.
  intros Hne Hnone. unfold reconcile_crs.
  assert (E : option_crs_eqb crs_eq_dec (point_crs points)
                (district_crs districts) = false).
  { destruct (option_crs_eqb _ _ _) eqn:E; [| reflexivity].
    apply option_crs_eqb_eq in E. congruence. }
  rewrite E. simpl. unfold to_crs.
  destruct (point_crs points), (district_crs districts);
    try reflexivity.
  destruct Hnone; discriminate.
Qed.

Lemma has_column_In (name : string) (f : polygon_frame polygon crs) :
  has_column name f = true <-> In name (columns f).
Proof.
  unfold has_column. apply existsb_eqb_In.
  intros a b. apply String.eqb_eq.
Qed.

Variable w : world geometry polygon crs.

(** The loader on a source that lacks the district column. *)
Lemma load_district_shapefiles_missing_column
    (punjab_source haryana_source : polygon_frame polygon crs)
    (s : run_state) :
  path_exists w PUNJAB_SHAPEFILE = true ->
  path_exists w HARYANA_SHAPEFILE = true ->
  read_polygons w PUNJAB_SHAPEFILE = Return punjab_source ->
  read_polygons w HARYANA_SHAPEFILE = Return haryana_source ->
  (~ In DISTRICT_COLUMN (columns punjab_source) ->
   load_district_shapefiles concat_crs w s
   = (SysExit 1,
      mkRunState (stdout s ++ [ColumnNotFound DISTRICT_COLUMN "Punjab"]
                    ++ [AvailableColumns (columns punjab_source)])
        (files s)))
  /\ (In DISTRICT_COLUMN (columns punjab_source) ->
      ~ In DISTRICT_COLUMN (columns haryana_source) ->
      load_district_shapefiles concat_crs w s
      = (SysExit 1,
         mkRunState (stdout s ++ [ColumnNotFound DISTRICT_COLUMN "Haryana"]
                       ++ [AvailableColumns (columns haryana_source)])
           (files s))).
Proof.
  intros Hp Hh Hrp Hrh.
  unfold load_district_shapefiles, try_except, bind, lift, ret.
  rewrite Hp, Hh, Hrp, Hrh. split.
  - intros Hn. rewrite <- has_column_In in Hn.
    apply not_true_is_false in Hn. rewrite Hn.
    unfold print, sys_exit. simpl. rewrite <- app_assoc. reflexivity.
  - intros Hy Hn. apply has_column_In in Hy. rewrite Hy.
    rewrite <- has_column_In in Hn.
    apply not_true_is_false in Hn. rewrite Hn.
    unfold print, sys_exit. simpl. rewrite <- app_assoc. reflexivity.
Qed.

(** *** The tables the run makes are aggregate tables *)

Lemma stamp_labelled (label : string) (f : polygon_frame polygon crs) :
  region_label label = true ->
  Forall (fun d => region_label (district_state d) = true) (stamp label f).
Proof.
  intros H. unfold stamp. apply Forall_map, Forall_forall.
  intros r _. exact H.
Qed.

(** Take the next call of a run apart; the branches that do not
    return contradict [H]. *)
Ltac step_run H c :=
  let E := fresh "E" in
  destruct c eqn:E; simpl in H; try discriminate H.

Lemma load_district_shapefiles_labelled (s s' : run_state)
    (districts : district_frame polygon crs) :
  load_district_shapefiles concat_crs w s = (Return districts, s') ->
  districts_labelled districts.
Proof.
  unfold load_district_shapefiles, try_except, bind, lift, ret, print,
    sys_exit.
  intros H.
  step_run H (path_exists w PUNJAB_SHAPEFILE).
  step_run H (path_exists w HARYANA_SHAPEFILE).
  step_run H (read_polygons w PUNJAB_SHAPEFILE).
  step_run H (read_polygons w HARYANA_SHAPEFILE).
  step_run H (has_column DISTRICT_COLUMN a).
  step_run H (has_column DISTRICT_COLUMN a0).
  step_run H (concat_crs (polygon_crs a) (polygon_crs a0)).
  injection H as <- _. unfold districts_labelled. simpl.
  apply Forall_app. split; apply stamp_labelled; reflexivity.
Qed.

Lemma sjoin_labelled (points : point_frame geometry crs)
    (districts : district_frame polygon crs) :
  districts_labelled districts ->
  points_labelled (sjoin within points districts).
Proof.
  unfold districts_labelled, points_labelled, sjoin.
  rewrite !Forall_forall. intros H p Hp.
  apply in_flat_map in Hp. destruct Hp as (pt & _ & Hp).
  apply in_map_iff in Hp. destruct Hp as (d & <- & Hd).
  apply filter_In in Hd. simpl. apply H, Hd.
Qed.

(** What the aggregation stage returns is the table of a list of
    labelled matched points. *)
Lemma process_fire_counts_aggregates (path : string)
    (districts : district_frame polygon crs) (s s' : run_state) (t : table) :
  districts_labelled districts ->
  process_fire_counts crs_eq_dec transform within w path districts s
  = (Return t, s') ->
  exists pts, points_labelled pts /\ aggregate pts = Return t.
Proof.
  intros Hl.
  unfold process_fire_counts, try_except, bind, lift, ret, print, sys_exit.
  intros H.
  step_run H (read_points w path).
  step_run H (point_rows a).
  - injection H as <- _. exists []. split; [constructor | reflexivity].
  - step_run H (sort_points a).
    step_run H (reconcile_crs crs_eq_dec transform a0 districts).
    exists (sjoin within a1 districts).
    split; [apply sjoin_labelled, Hl |].
    remember (sjoin within a1 districts) as joined eqn:Ej. clear Ej.
    destruct (aggregate joined) as [t' | e | n];
      destruct joined; simpl in H; try discriminate H;
      injection H as <- _; reflexivity.
Qed.

(** C7.  With the stages before the loader done, a polygon source
    that lacks the configured district column ends the run: the
    diagnostic names the column and lists all the columns that source
    has, the process ends with status 1, and the files, the two
    output documents among them, are as they were. *)
Theorem missing_column_aborts
    (punjab_source haryana_source : polygon_frame polygon crs)
    (s : run_state) :
  makedirs w = Return tt ->
  fetch_and_extract w = Return tt ->
  path_exists w FIRE_SHAPEFILE = true ->
  path_exists w PUNJAB_SHAPEFILE = true ->
  path_exists w HARYANA_SHAPEFILE = true ->
  read_polygons w PUNJAB_SHAPEFILE = Return punjab_source ->
  read_polygons w HARYANA_SHAPEFILE = Return haryana_source ->
  (~ In DISTRICT_COLUMN (columns punjab_source) ->
   aborts_listing "Punjab" (columns punjab_source) s
     (main crs_eq_dec transform within concat_crs w s))
  /\ (In DISTRICT_COLUMN (columns punjab_source) ->
      ~ In DISTRICT_COLUMN (columns haryana_source) ->
      aborts_listing "Haryana" (columns haryana_source) s
        (main crs_eq_dec transform within concat_crs w s)).
Proof.
  intros Hmk Hfetch Hfire Hp Hh Hrp Hrh.
  destruct (load_district_shapefiles_missing_column
              punjab_source haryana_source s Hp Hh Hrp Hrh) as [H1 H2].
  unfold main, download_and_extract_fire_data, try_except, bind, lift, ret.
  rewrite Hmk, Hfetch, Hfire.
  split; [intros Hn; rewrite (H1 Hn) | intros Hy Hn; rewrite (H2 Hy Hn)];
    repeat split; reflexivity.
Qed.

(** The aggregation stage when no point matches. *)
Lemma process_fire_counts_no_match (path : string)
    (districts : district_frame polygon crs)
    (points : point_frame geometry crs) (s : run_state) :
  read_points w path = Return points ->
  no_point_matches crs_eq_dec transform within points districts ->
  exists s',
    process_fire_counts crs_eq_dec transform within w path districts s
    = (Return [], s')
    /\ files s' = files s.
Proof.
  intros Hread Hno.
  unfold process_fire_counts, try_except, bind, lift, ret.
  rewrite Hread.
  destruct Hno as [Hempty | (sorted & reconciled & Hs & Hr & Hj)].
  - rewrite Hempty. simpl. eexists. split; reflexivity.
  - destruct (point_rows points) as [|p rest].
    + simpl. eexists. split; reflexivity.
    + rewrite Hs, Hr, Hj. simpl. eexists. split; reflexivity.
Qed.

(** C5.  When no point matches a district the run does not fail:
    [main] returns, and the two files hold the daily document with an
    empty [daily_data] and the summary with a total of zero, a null
    date range, no top district and zero for both regions. *)
Theorem zero_match_run (path : string)
    (districts : district_frame polygon crs)
    (points : point_frame geometry crs) (s s1 s2 : run_state) :
  makedirs w = Return tt ->
  download_and_extract_fire_data w s = (Return path, s1) ->
  load_district_shapefiles concat_crs w s1 = (Return districts, s2) ->
  read_points w path = Return points ->
  no_point_matches crs_eq_dec transform within points districts ->
  writable w OUTPUT_JSON = true ->
  writable w SUMMARY_JSON = true ->
  exists s',
    main crs_eq_dec transform within concat_crs w s = (Return tt, s')
    /\ files s' OUTPUT_JSON
       = Some (DailyJson (empty_daily_document (utcnow_daily w)))
    /\ files s' SUMMARY_JSON
       = Some (SummaryJson (empty_summary_document (utcnow_summary w))).
Proof.
  intros Hmk Hdl Hload Hread Hno Hw1 Hw2.
  destruct (process_fire_counts_no_match path districts points s2
              Hread Hno) as (s3 & Hproc & _).
  unfold main, try_except, bind, lift, ret, dump.
  rewrite Hmk, Hdl, Hload, Hproc. simpl.
  rewrite Hw1, Hw2. eexists. split; [reflexivity |].
  split; reflexivity.
Qed.

End PipelineFacts.

(** ** The theorems at work on concrete inputs *)

Lemma daily_totals_add_up_witness :
  exists doc,
    create_json_output run_time tie_table = Return doc
    /\ Forall totals_add_up (daily_data doc).
Proof.
  eexists. split; [vm_compute; reflexivity |].
  apply (daily_totals_add_up run_time tie_table); vm_compute; reflexivity.
Defined.

Lemma summary_total_is_sum_of_daily_witness :
  exists doc sdoc,
    create_json_output run_time tie_table = Return doc
    /\ create_summary_output run_time tie_table = Return sdoc
    /\ total_fire_count sdoc = 4
    /\ total_fire_count sdoc = Zsum (map combined_total (daily_data doc)).
Proof.
  do 2 eexists.
  split; [vm_compute; reflexivity |].
  split; [vm_compute; reflexivity |].
  split; [reflexivity |].
  apply (summary_total_is_sum_of_daily run_time run_time tie_table);
    vm_compute; reflexivity.
Defined.

Lemma aggregate_keyed_and_sorted_witness :
  NoDup (map key_of_row tie_table)
  /\ (forall k, In k (map key_of_row tie_table)
                <-> In k (map key_of_point tie_points))
  /\ (forall r, In r tie_table ->
        fire_count r = Z.of_nat (count_key (key_of_row r) tie_points))
  /\ StronglySorted row_le tie_table.
Proof.
  apply (aggregate_keyed_and_sorted tie_points tie_table).
  vm_compute. reflexivity.
Defined.

Lemma emitted_counts_positive_witness :
  exists doc sdoc,
    create_json_output run_time tie_table = Return doc
    /\ create_summary_output run_time tie_table = Return sdoc
    /\ (exists ds,
          unique_dates_of tie_table = Return ds
          /\ Forall2
               (fun d e =>
                  region_listing tie_points d "Punjab" (punjab e)
                  /\ region_listing tie_points d "Haryana" (haryana e))
               ds (daily_data doc))
    /\ Forall (fun x => 1 <= total_fires x) (top_districts sdoc).
Proof.
  do 2 eexists.
  split; [vm_compute; reflexivity |].
  split; [vm_compute; reflexivity |].
  apply (emitted_counts_positive tie_points tie_table run_time run_time);
    vm_compute; reflexivity.
Defined.

Lemma top_districts_bounded_descending_witness :
  exists sdoc,
    create_summary_output run_time tie_table = Return sdoc
    /\ (List.length (top_districts sdoc) <= 20)%nat
    /\ StronglySorted total_ge (top_districts sdoc).
Proof.
  eexists. split; [vm_compute; reflexivity |].
  apply (top_districts_bounded_descending run_time tie_table).
  vm_compute. reflexivity.
Defined.

Lemma dates_render_upstream_witness :
  exists doc sdoc,
    create_json_output run_time object_table = Return doc
    /\ create_summary_output run_time object_table = Return sdoc
    /\ map date (daily_data doc) = ["2024-01-05"; "2024-01-06"]
    /\ Forall (fun e => emitted_date object_table (date e)) (daily_data doc)
    /\ exists s e,
         range_start (date_range sdoc) = Some s
         /\ range_end (date_range sdoc) = Some e
         /\ emitted_date object_table s /\ emitted_date object_table e.
Proof.
  do 2 eexists.
  split; [vm_compute; reflexivity |].
  split; [vm_compute; reflexivity |].
  split; [reflexivity |].
  apply (dates_render_upstream run_time run_time object_table);
    [discriminate | vm_compute; reflexivity | vm_compute; reflexivity].
Defined.

Lemma crs_reconciled_witness :
  reconcile_crs Z.eq_dec toy_transform toy_points toy_districts
  = Return toy_points
  /\ exists points',
       reconcile_crs Z.eq_dec toy_transform shifted_points toy_districts
       = Return points'
       /\ point_crs points' = Some 4326
       /\ point_rows points' = point_rows toy_points
       /\ List.length (point_rows points') = 3%nat.
Proof.
  split.
  - apply (crs_reconciled (Z * Z) box Z Z.eq_dec toy_transform
             toy_points toy_districts).
    reflexivity.
  - destruct (crs_reconciled (Z * Z) box Z Z.eq_dec toy_transform
                shifted_points toy_districts) as [_ H].
    destruct (H 3326 4326 eq_refl eq_refl) as (p & Hp & Hc & Hr & Hl);
      [discriminate |].
    exists p. repeat split; assumption.
Defined.

Lemma missing_column_aborts_witness :
  aborts_listing "Haryana" ["DISTRICT"; "geometry"] initial_state
    (main Z.eq_dec toy_transform toy_within toy_concat_crs
       (toy_world toy_haryana_misnamed toy_points) initial_state).
Proof.
  apply (missing_column_aborts (Z * Z) box Z Z.eq_dec toy_transform
           toy_within toy_concat_crs
           (toy_world toy_haryana_misnamed toy_points)
           toy_punjab toy_haryana_misnamed initial_state
           eq_refl eq_refl eq_refl eq_refl eq_refl eq_refl eq_refl).
  - left. reflexivity.
  - intros [H | [H | []]]; discriminate H.
Defined.

Lemma zero_match_run_witness :
  exists s',
    main Z.eq_dec toy_transform toy_within toy_concat_crs
      (toy_world toy_haryana far_points) initial_state
    = (Return tt, s')
    /\ files s' OUTPUT_JSON
       = Some (DailyJson (empty_daily_document "2024-01-03T06:00:00.000001Z"))
    /\ files s' SUMMARY_JSON
       = Some (SummaryJson
                 (empty_summary_document "2024-01-03T06:00:00.000002Z")).
Proof.
  apply (zero_match_run (Z * Z) box Z Z.eq_dec toy_transform toy_within
           toy_concat_crs (toy_world toy_haryana far_points)
           FIRE_SHAPEFILE toy_districts far_points
           initial_state initial_state initial_state);
    try reflexivity.
  right. do 2 eexists.
  split; [reflexivity |]. split; reflexivity.
Defined.

(** ** The scenario of the specification

    Three points, two in Ludhiana on 2024-01-01 and one in Patiala on
    2024-01-02, none in Haryana. *)
Example scenario_documents :
  exists t doc sdoc,
    aggregate scenario_points = Return t
    /\ create_json_output run_time t = Return doc
    /\ create_summary_output run_time t = Return sdoc
    /\ map (fun e => (date e, total (punjab e), total (haryana e),
                      combined_total e)) (daily_data doc)
       = [ ("2024-01-01", 2, 0, 2); ("2024-01-02", 1, 0, 1) ]
    /\ total_fire_count sdoc = 3
    /\ top_districts sdoc
       = [ mkTopDistrict "Punjab" "Ludhiana" 2;
           mkTopDistrict "Punjab" "Patiala" 1 ]
    /\ state_totals sdoc = mkStateTotals 3 0.
Proof.
  do 3 eexists. repeat split; vm_compute; reflexivity.
Qed.

(** * Further properties of the stages *)

(** ** The state totals of the summary *)

Lemma find_group {V : Type} (label : string) (f : string -> V)
    (ks : list string) :
  find (fun kv => String.eqb (fst kv) label) (map (fun k => (k, f k)) ks)
  = if existsb (String.eqb label) ks then Some (label, f label) else None.
Proof.
  induction ks as [|k ks IH]; simpl; [reflexivity |].
  rewrite (String.eqb_sym label k).
  destruct (String.eqb k label) eqn:E; simpl; [| exact IH].
  apply String.eqb_eq in E. subst k. reflexivity.
Qed.

(** [state_totals.get(label, 0)] is the sum over the rows of the
    label, which is 0 when the label has no row. *)
Lemma get_total_state_sums (label : string) (t : table) :
  get_total label (state_sums t)
  = int64_sum (map fire_count (state_rows label t)).
Proof.
  unfold get_total, state_sums, groupby. rewrite find_group.
  destruct (existsb _ _) eqn:E; [reflexivity |].
  assert (Hn : ~ In label (map state t)).
  { intros Hin.
    apply (unique_In String.eqb String.eqb_eq) in Hin.
    apply (sort_by_In String.leb) in Hin.
    apply (existsb_eqb_In String.eqb String.eqb_eq) in Hin. congruence. }
  unfold state_rows.
  replace (filter (fun r => String.eqb (state r) label) t) with (@nil row);
    [reflexivity |].
  symmetry. clear E. induction t as [|r t IH]; simpl; [reflexivity |].
  destruct (String.eqb (state r) label) eqn:Er.
  - apply String.eqb_eq in Er. exfalso. apply Hn. left. exact Er.
  - apply IH. intros H. apply Hn. right. exact H.
Qed.

Lemma filter_filter_comm {A : Type} (f g : A -> bool) (l : list A) :
  filter f (filter g l) = filter g (filter f l).
Proof.
  induction l as [|x l IH]; simpl; [reflexivity |].
  destruct (f x) eqn:Ef, (g x) eqn:Eg; simpl;
    rewrite ?Ef, ?Eg, IH; reflexivity.
Qed.

Lemma daily_data_spec (now : string) (t : table) (doc : daily_document) :
  create_json_output now t = Return doc ->
  exists ds,
    unique_dates_of t = Return ds
    /\ doc = mkDailyDocument now "NASA FIRMS VIIRS (NOAA-20)" "7 days"
               (map (daily_entry_of t) ds).
Proof.
  intros H. destruct t as [|r t'].
  - injection H as <-. exists []. split; reflexivity.
  - unfold create_json_output in H.
    destruct (unique_dates_of (r :: t')) as [ds | e | n]; simpl in H;
      try discriminate.
    injection H as <-. exists ds. split; reflexivity.
Qed.

Lemma summary_spec (now : string) (t : table) (sdoc : summary_document) :
  create_summary_output now t = Return sdoc ->
  total_fire_count sdoc = int64_sum (map fire_count t)
  /\ top_districts sdoc = top_districts_of t
  /\ state_totals sdoc
     = mkStateTotals (get_total "Punjab" (state_sums t))
         (get_total "Haryana" (state_sums t))
  /\ summary_last_updated sdoc = now.
Proof.
  intros H. destruct t as [|r t'].
  - injection H as <-. repeat split; reflexivity.
  - unfold create_summary_output in H.
    destruct (unique_dates_of (r :: t')) as [ds | e | n]; simpl in H;
      try discriminate.
    destruct (date_range_of ds); simpl in H; try discriminate.
    injection H as <-. repeat split; reflexivity.
Qed.

(** The totals of one region over the days. *)
Lemma region_totals_over_days (label : string) (t : table)
    (ds : list acq_date) :
  counts_fit t = true ->
  unique_dates_of t = Return ds ->
  Zsum (map (fun d =>
               total (region_of
                        (state_rows label
                           (filter (fun r => date_eqb (ACQ_DATE r) d) t))))
          ds)
  = Zsum (map fire_count (state_rows label t)).
Proof.
  intros Hfit Hds. apply counts_fit_spec in Hfit. destruct Hfit as [Hn Hb].
  rewrite <- (Zsum_groups date_eqb date_eqb_eq ACQ_DATE fire_count ds
                (state_rows label t)).
  - f_equal. apply map_ext. intros d. simpl. unfold state_rows.
    rewrite filter_filter_comm.
    apply int64_sum_exact.
    + apply nonneg_filter, nonneg_filter, Hn.
    + pose proof (Zsum_filter_le (fun r => date_eqb (ACQ_DATE r) d) _
                    (nonneg_filter (fun r => String.eqb (state r) label)
                       t Hn)).
      pose proof (Zsum_filter_le (fun r => String.eqb (state r) label) t Hn).
      lia.
  - eapply unique_dates_of_NoDup, Hds.
  - intros r Hr. apply (unique_dates_of_In _ _ _ Hds).
    apply in_map. unfold state_rows in Hr. apply filter_In in Hr. tauto.
Qed.

(** X1.  On a table whose counts fit, the two state totals of the
    summary are the sums of the counts of the rows of each region (0
    for a region without rows), and each equals the sum of that
    region's totals over the entries of the daily document. *)
Theorem state_totals_match_daily (now1 now2 : string) (t : table)
    (doc : daily_document) (sdoc : summary_document) :
  counts_fit t = true ->
  create_json_output now1 t = Return doc ->
  create_summary_output now2 t = Return sdoc ->
  punjab_total (state_totals sdoc)
  = Zsum (map fire_count (state_rows "Punjab" t))
  /\ haryana_total (state_totals sdoc)
     = Zsum (map fire_count (state_rows "Haryana" t))
  /\ punjab_total (state_totals sdoc)
     = Zsum (map (fun e => total (punjab e)) (daily_data doc))
  /\ haryana_total (state_totals sdoc)
     = Zsum (map (fun e => total (haryana e)) (daily_data doc)).
Proof.
  intros Hfit Hdoc Hsum.
  destruct (daily_data_spec _ _ _ Hdoc) as (ds & Hds & ->).
  destruct (summary_spec _ _ _ Hsum) as (_ & _ & -> & _). simpl.
  rewrite !get_total_state_sums.
  pose proof Hfit as Hfit'.
  apply counts_fit_spec in Hfit'. destruct Hfit' as [Hn Hb].
  assert (Hexact : forall label,
            int64_sum (map fire_count (state_rows label t))
            = Zsum (map fire_count (state_rows label t))).
  { intros label. apply int64_sum_exact.
    - apply nonneg_filter, Hn.
    - pose proof (Zsum_filter_le
                    (fun r => String.eqb (state r) label) t Hn) as Hle.
      unfold state_rows. lia. }
  rewrite !Hexact, !map_map.
  split; [reflexivity |]. split; [reflexivity |].
  split; symmetry;
    [apply (region_totals_over_days "Punjab" t ds Hfit Hds)
    | apply (region_totals_over_days "Haryana" t ds Hfit Hds)].
Qed.

(** X2.  On an aggregate table the two state totals of the summary add
    up to its [total_fire_count]. *)
Theorem state_totals_add_up (now : string) (t : table)
    (sdoc : summary_document) :
  counts_fit t = true ->
  two_regions t = true ->
  create_summary_output now t = Return sdoc ->
  punjab_total (state_totals sdoc) + haryana_total (state_totals sdoc)
  = total_fire_count sdoc.
Proof.
  intros Hfit Htwo Hsum.
  destruct (summary_spec _ _ _ Hsum) as (-> & _ & -> & _). simpl.
  rewrite !get_total_state_sums.
  apply counts_fit_spec in Hfit. destruct Hfit as [Hn Hb].
  pose proof (Zsum_filter_le (fun r => String.eqb (state r) "Punjab") t Hn).
  pose proof (Zsum_filter_le (fun r => String.eqb (state r) "Haryana") t Hn).
  rewrite !int64_sum_exact;
    try (apply nonneg_filter, Hn); try exact Hn; try exact Hb;
    unfold state_rows; try lia.
  apply Zsum_two_regions, Htwo.
Qed.

(** ** What the top districts are *)

Lemma district_sums_keys (t : table) :
  map fst (district_sums t)
  = sort_by pair_leb (unique pair_eqb (map pair_of_row t)).
Proof.
  unfold district_sums, groupby. rewrite map_map. simpl. apply map_id.
Qed.

Lemma district_sums_NoDup (t : table) : NoDup (map fst (district_sums t)).
Proof.
  rewrite district_sums_keys.
  apply sort_by_NoDup, (unique_NoDup pair_eqb pair_eqb_eq).
Qed.

Lemma district_sums_entry (t : table) (k : string * string) :
  In k (map pair_of_row t) -> In (k, period_sum k t) (district_sums t).
Proof.
  intros H. unfold district_sums, groupby. apply in_map_iff.
  exists k. split; [reflexivity |].
  apply sort_by_In, (unique_In pair_eqb pair_eqb_eq). exact H.
Qed.

Lemma district_sums_value (t : table) (k : string * string) (c : Z) :
  In (k, c) (district_sums t) ->
  c = period_sum k t /\ In k (map pair_of_row t).
Proof.
  unfold district_sums, groupby. intros H. apply in_map_iff in H.
  destruct H as (k' & E & Hk). injection E as -> <-.
  split; [reflexivity |].
  apply (proj1 (sort_by_In pair_leb _ _)) in Hk.
  apply (proj1 (unique_In pair_eqb pair_eqb_eq _ _)) in Hk. exact Hk.
Qed.

Lemma NoDup_firstn {A : Type} (n : nat) (l : list A) :
  NoDup l -> NoDup (firstn n l).
Proof.
  intros H. revert n. induction H as [|x l Hx Hl IH]; intros [|n]; simpl;
    try constructor; [| apply IH].
  intros Hin. apply Hx. eapply In_firstn, Hin.
Qed.

Lemma top_keys (t : table) :
  map top_key (top_districts_of t)
  = firstn 20 (map fst (sort_values_desc (district_sums t))).
Proof.
  unfold top_districts_of, top_districts_with.
  rewrite map_map, firstn_map. apply map_ext.
  intros [[s n] c]. reflexivity.
Qed.

(** X3.  The entries of [top_districts] are distinct (region,
    sub-region) pairs of the table, each with the sum of the counts of
    its pair over the whole table. *)
Theorem top_districts_period_sums (now : string) (t : table)
    (sdoc : summary_document) :
  create_summary_output now t = Return sdoc ->
  NoDup (map top_key (top_districts sdoc))
  /\ forall x, In x (top_districts sdoc) ->
       In (top_key x) (map pair_of_row t)
       /\ total_fires x = period_sum (top_key x) t.
Proof.
  intros Hsum. destruct (summary_spec _ _ _ Hsum) as (_ & -> & _). split.
  - rewrite top_keys. apply NoDup_firstn.
    eapply Permutation_NoDup; [| apply (district_sums_NoDup t)].
    apply Permutation_map, Permutation_sym, sort_values_desc_perm.
  - intros x Hx. apply top_districts_of_In, district_sums_value in Hx.
    unfold top_key. tauto.
Qed.

Lemma StronglySorted_app_le {A : Type} (R : A -> A -> Prop)
    (l1 l2 : list A) :
  StronglySorted R (l1 ++ l2) ->
  forall a b, In a l1 -> In b l2 -> R a b.
Proof.
  induction l1 as [|x l1 IH]; simpl; intros H a b Ha Hb; [destruct Ha |].
  inversion H as [|? ? Hs Hx]; subst.
  destruct Ha as [<- | Ha]; [| eapply IH; eassumption].
  rewrite Forall_forall in Hx. apply Hx, in_or_app. right. exact Hb.
Qed.

(** X4.  A pair of the table is left out of [top_districts] only when
    the list is full, and then its whole-period sum is no larger than
    the total of any listed entry. *)
Theorem top_districts_dominate (now : string) (t : table)
    (sdoc : summary_document) (k : string * string) :
  create_summary_output now t = Return sdoc ->
  In k (map pair_of_row t) ->
  ~ In k (map top_key (top_districts sdoc)) ->
  List.length (top_districts sdoc) = 20%nat
  /\ forall x, In x (top_districts sdoc) -> period_sum k t <= total_fires x.
Proof.
  intros Hsum Hk Hout. destruct (summary_spec _ _ _ Hsum) as (_ & E & _).
  rewrite E in *. clear E Hsum.
  set (sorted := sort_values_desc (district_sums t)) in *.
  assert (Hin : In (k, period_sum k t) sorted).
  { eapply Permutation_in;
      [apply Permutation_sym, sort_values_desc_perm |].
    apply district_sums_entry, Hk. }
  assert (Hrest : In (k, period_sum k t) (skipn 20 sorted)).
  { rewrite <- (firstn_skipn 20 sorted) in Hin.
    apply in_app_or in Hin. destruct Hin as [Hin | Hin]; [| exact Hin].
    exfalso. apply Hout. rewrite top_keys. fold sorted.
    rewrite firstn_map. apply (in_map fst) in Hin. exact Hin. }
  split.
  - unfold top_districts_of, top_districts_with. fold sorted.
    rewrite length_map, firstn_length_le; [reflexivity |].
    destruct (Nat.le_gt_cases 20 (List.length sorted)) as [H | H];
      [exact H |].
    rewrite skipn_all2 in Hrest by lia. destruct Hrest.
  - intros x Hx.
    unfold top_districts_of, top_districts_with in Hx. fold sorted in Hx.
    apply in_map_iff in Hx. destruct Hx as (kv & <- & Hkv). simpl.
    pose proof (sort_values_desc_sorted (district_sums t)) as Hs.
    fold sorted in Hs. rewrite <- (firstn_skipn 20 sorted) in Hs.
    exact (StronglySorted_app_le _ _ _ Hs _ _ Hkv Hrest).
Qed.

(** ** The order of the daily document *)

Lemma date_leb_iff (a b : acq_date) :
  date_leb a b = true <-> date_lt a b \/ a = b.
Proof.
  unfold date_leb, date_lt. rewrite <- date_compare_eq.
  destruct (date_compare a b); simpl; split; intros H; auto;
    try discriminate; destruct H; discriminate.
Qed.

Lemma date_leb_trans (a b c : acq_date) :
  date_leb a b = true -> date_leb b c = true -> date_leb a c = true.
Proof.
  rewrite !date_leb_iff. unfold date_lt.
  intros [H1 | ->] [H2 | ->]; auto.
  left. eapply date_compare_lt_trans; eassumption.
Qed.

Lemma unique_dates_of_sorted (t : table) (ds : list acq_date) :
  unique_dates_of t = Return ds ->
  StronglySorted (fun a b => date_leb a b = true) ds.
Proof.
  intros H. apply unique_dates_of_spec in H. destruct H as [_ ->].
  apply Sorted_StronglySorted.
  - intros a b c. apply date_leb_trans.
  - apply sort_by_sorted, date_leb_total.
Qed.

Lemma unique_dates_of_strict (t : table) (ds : list acq_date) :
  unique_dates_of t = Return ds -> StronglySorted date_lt ds.
Proof.
  intros H. pose proof (unique_dates_of_sorted _ _ H) as Hs.
  pose proof (unique_dates_of_NoDup _ _ H) as Hn. clear H.
  induction Hs as [|x l Hs IH Hx]; [constructor |].
  inversion Hn as [|? ? Hout Hl]; subst.
  constructor; [apply IH, Hl |].
  rewrite Forall_forall in *. intros y Hy.
  destruct (proj1 (date_leb_iff x y) (Hx y Hy)) as [Hlt | ->];
    [exact Hlt | contradiction].
Qed.

(** X5.  The daily document has one entry for each distinct date of the
    table, in strictly ascending order of the dates, each showing its
    date as a string kept as it is or as the calendar date of a date
    object. *)
Theorem daily_entries_ascending (now : string) (t : table)
    (doc : daily_document) :
  create_json_output now t = Return doc ->
  exists ds,
    StronglySorted date_lt ds
    /\ (forall d, In d ds <-> In d (map ACQ_DATE t))
    /\ map date (daily_data doc) = map date_str_of ds
    /\ List.length (daily_data doc) = List.length ds.
Proof.
  intros Hdoc. destruct (daily_data_spec _ _ _ Hdoc) as (ds & Hds & ->).
  exists ds. simpl. repeat split.
  - eapply unique_dates_of_strict, Hds.
  - apply (unique_dates_of_In _ _ _ Hds).
  - apply (unique_dates_of_In _ _ _ Hds).
  - rewrite map_map. reflexivity.
  - apply length_map.
Qed.

Lemma last_cons_default {A : Type} (x : A) (l : list A) (d d' : A) :
  List.last (x :: l) d = List.last (x :: l) d'.
Proof.
  revert x. induction l as [|y r IH]; intros x; [reflexivity |].
  change (List.last (y :: r) d = List.last (y :: r) d'). apply IH.
Qed.

Lemma StronglySorted_last {A : Type} (R : A -> A -> Prop) (x : A)
    (l : list A) (y : A) :
  StronglySorted R (x :: l) -> In y (x :: l) ->
  y = List.last (x :: l) x \/ R y (List.last (x :: l) x).
Proof.
  revert x y. induction l as [|z l IH]; intros x y Hs Hy.
  - destruct Hy as [<- | []]. left. reflexivity.
  - change (List.last (x :: z :: l) x) with (List.last (z :: l) x).
    rewrite (last_cons_default z l x z).
    inversion Hs as [|? ? Hs' Hx]; subst.
    destruct Hy as [<- | Hy]; [| apply IH; assumption].
    right. rewrite Forall_forall in Hx. apply Hx, last_cons_In.
Qed.

(** X6.  The date range of the summary of a table that is not empty
    names the earliest and the latest date of the table. *)
Theorem date_range_spans (now : string) (t : table)
    (sdoc : summary_document) :
  t <> [] ->
  create_summary_output now t = Return sdoc ->
  exists lo hi,
    In lo (map ACQ_DATE t) /\ In hi (map ACQ_DATE t)
    /\ range_start (date_range sdoc) = Some (date_str_of lo)
    /\ range_end (date_range sdoc) = Some (date_str_of hi)
    /\ forall d, In d (map ACQ_DATE t) ->
         date_leb lo d = true /\ date_leb d hi = true.
Proof.
  intros Hne Hsum. destruct t as [|r t']; [congruence |].
  unfold create_summary_output in Hsum.
  destruct (unique_dates_of (r :: t')) as [ds | e | n] eqn:Hds;
    simpl in Hsum; try discriminate.
  destruct (date_range_of ds) as [range | e | n] eqn:Hrange;
    simpl in Hsum; try discriminate.
  injection Hsum as <-. simpl.
  pose proof (unique_dates_of_sorted _ _ Hds) as Hs.
  pose proof (fun d => unique_dates_of_In _ _ d Hds) as Hin.
  destruct ds as [|first rest].
  { exfalso. apply (Hin (ACQ_DATE r)). left. reflexivity. }
  unfold date_range_of in Hrange.
  set (final := List.last (first :: rest) first) in *.
  assert (Hfinal : In final (first :: rest)) by apply last_cons_In.
  exists first, final.
  split; [apply Hin; left; reflexivity |].
  split; [apply Hin, Hfinal |].
  assert (Hrng : range_start range = Some (date_str_of first)
                 /\ range_end range = Some (date_str_of final)).
  { destruct first as [s | ts], final as [s' | ts']; simpl in Hrange;
      try discriminate; injection Hrange as <-; split; reflexivity. }
  destruct Hrng as [-> ->]. split; [reflexivity |]. split; [reflexivity |].
  intros d Hd. apply Hin in Hd. split.
  - destruct Hd as [<- | Hd].
    + apply date_leb_iff. right. reflexivity.
    + inversion Hs as [|? ? _ Hx]; subst.
      rewrite Forall_forall in Hx. apply Hx, Hd.
  - destruct (StronglySorted_last _ first rest d Hs Hd) as [-> | H].
    + apply date_leb_iff. right. reflexivity.
    + exact H.
Qed.

Lemma StronglySorted_filter {A : Type} (R : A -> A -> Prop)
    (f : A -> bool) (l : list A) :
  StronglySorted R l -> StronglySorted R (filter f l).
Proof.
  induction 1 as [|x l Hs IH Hx]; simpl; [constructor |].
  destruct (f x); [| exact IH].
  constructor; [exact IH |].
  rewrite Forall_forall in *. intros y Hy. apply filter_In in Hy.
  apply Hx, Hy.
Qed.

Lemma StronglySorted_impl_in {A : Type} (R Q : A -> A -> Prop)
    (P : A -> Prop) (l : list A) :
  (forall a b, P a -> P b -> R a b -> Q a b) ->
  Forall P l -> StronglySorted R l -> StronglySorted Q l.
Proof.
  intros HRQ HP Hs. induction Hs as [|x l Hs IH Hx]; [constructor |].
  inversion HP as [|? ? Px Pl]; subst.
  constructor; [apply IH, Pl |].
  rewrite Forall_forall in *. intros y Hy. apply HRQ; auto.
Qed.

Lemma aggregate_sorted (pts : list matched_point) (t : table) :
  aggregate pts = Return t -> StronglySorted row_le t.
Proof.
  intros Ht. apply sort_values_spec in Ht. destruct Ht as [_ ->].
  apply Sorted_StronglySorted.
  - intros a b c. apply row_le_trans.
  - eapply Sorted_impl; [| apply sort_by_sorted, row_leb_total].
    intros a b. apply row_leb_le.
Qed.

Lemma region_list_descending (t : table) (d : acq_date) (label : string) :
  StronglySorted row_le t ->
  StronglySorted count_ge
    (districts
       (region_of
          (state_rows label
             (filter (fun r => date_eqb (ACQ_DATE r) d) t)))).
Proof.
  intros Hs. simpl. unfold district_entries.
  apply StronglySorted_map. unfold count_ge. simpl.
  apply (StronglySorted_impl_in row_le _
           (fun r => ACQ_DATE r = d /\ state r = label)).
  - intros a b [Da Sa] [Db Sb] [H | (_ & [H | (_ & H)])].
    + rewrite Da, Db, date_compare_refl in H. discriminate.
    + rewrite Sa, Sb, string_compare_refl in H. discriminate.
    + exact H.
  - apply Forall_forall. intros r Hr. unfold state_rows in Hr.
    rewrite !filter_In in Hr. destruct Hr as [[_ Hd] Hl].
    apply date_eqb_eq in Hd. apply String.eqb_eq in Hl. auto.
  - unfold state_rows. do 2 apply StronglySorted_filter. exact Hs.
Qed.

(** X7.  In the daily document made from the aggregator's table, the
    district list of each region under each date is in descending
    order of count. *)
Theorem district_lists_descending (pts : list matched_point) (t : table)
    (now : string) (doc : daily_document) :
  aggregate pts = Return t ->
  create_json_output now t = Return doc ->
  Forall (fun e => StronglySorted count_ge (districts (punjab e))
                   /\ StronglySorted count_ge (districts (haryana e)))
    (daily_data doc).
Proof.
  intros Ht Hdoc. destruct (daily_data_spec _ _ _ Hdoc) as (ds & _ & ->).
  simpl. apply Forall_map, Forall_forall. intros d _.
  pose proof (aggregate_sorted _ _ Ht) as Hs.
  split; apply region_list_descending; exact Hs.
Qed.

(** ** Every matched point is counted once *)

Lemma daily_combined_sum (t : table) (ds : list acq_date) :
  counts_fit t = true -> two_regions t = true ->
  unique_dates_of t = Return ds ->
  Zsum (map combined_total (map (daily_entry_of t) ds))
  = Zsum (map fire_count t).
Proof.
  intros Hfit Htwo Hds. rewrite map_map.
  rewrite (map_ext _
             (fun d => Zsum (map fire_count
                (filter (fun r => date_eqb (ACQ_DATE r) d) t)))).
  - apply (Zsum_groups date_eqb date_eqb_eq ACQ_DATE fire_count).
    + eapply unique_dates_of_NoDup, Hds.
    + intros r Hr. apply (unique_dates_of_In _ _ _ Hds), in_map, Hr.
  - intros d. apply daily_entry_of_combined; assumption.
Qed.

Lemma matched_points_totals (pts : list matched_point) (t : table)
    (now1 now2 : string) (doc : daily_document) (sdoc : summary_document) :
  Z.of_nat (List.length pts) < 2 ^ 63 ->
  points_labelled pts ->
  aggregate pts = Return t ->
  create_json_output now1 t = Return doc ->
  create_summary_output now2 t = Return sdoc ->
  total_fire_count sdoc = Z.of_nat (List.length pts)
  /\ Zsum (map combined_total (daily_data doc)) = Z.of_nat (List.length pts)
  /\ punjab_total (state_totals sdoc) + haryana_total (state_totals sdoc)
     = Z.of_nat (List.length pts).
Proof.
  intros Hlen Hlab Ht Hdoc Hsum.
  pose proof (aggregate_counts_fit _ _ Hlen Ht) as Hfit.
  pose proof (aggregate_two_regions _ _ Hlab Ht) as Htwo.
  pose proof (aggregate_total _ _ Ht) as Htot.
  destruct (daily_data_spec _ _ _ Hdoc) as (ds & Hds & ->).
  destruct (summary_spec _ _ _ Hsum) as (Ec & _ & Es & _).
  assert (Etotal : total_fire_count sdoc = Z.of_nat (List.length pts)).
  { rewrite Ec, <- Htot. apply counts_fit_spec in Hfit.
    apply int64_sum_exact; tauto. }
  split; [exact Etotal |]. split.
  - simpl. rewrite (daily_combined_sum t ds Hfit Htwo Hds). exact Htot.
  - rewrite <- Etotal, Ec, Es. simpl. rewrite !get_total_state_sums.
    apply counts_fit_spec in Hfit. destruct Hfit as [Hn Hb].
    pose proof (Zsum_filter_le
                  (fun r => String.eqb (state r) "Punjab") t Hn).
    pose proof (Zsum_filter_le
                  (fun r => String.eqb (state r) "Haryana") t Hn).
    rewrite !int64_sum_exact;
      try (apply nonneg_filter, Hn); try exact Hn; try exact Hb;
      unfold state_rows; try lia.
    apply Zsum_two_regions, Htwo.
Qed.

(** X8.  For fewer than 2^63 matched points carrying the two region
    labels, the summary's [total_fire_count], the sum of the daily
    [combined_total] values and the sum of the two state totals all
    equal the number of matched points. *)
Theorem totals_count_matched_points (pts : list matched_point) (t : table)
    (now1 now2 : string) (doc : daily_document) (sdoc : summary_document) :
  Z.of_nat (List.length pts) < 2 ^ 63 ->
  points_labelled pts ->
  aggregate pts = Return t ->
  create_json_output now1 t = Return doc ->
  create_summary_output now2 t = Return sdoc ->
  total_fire_count sdoc = Z.of_nat (List.length pts)
  /\ Zsum (map combined_total (daily_data doc)) = Z.of_nat (List.length pts)
  /\ punjab_total (state_totals sdoc) + haryana_total (state_totals sdoc)
     = Z.of_nat (List.length pts).
Proof. apply matched_points_totals. Qed.

(** ** The table does not depend on the order of the points *)

Section Canonical.
Context {A : Type}.
Variable leb : A -> A -> bool.
Hypothesis leb_total : forall a b, leb a b = true \/ leb b a = true.
Hypothesis leb_trans :
  forall a b c, leb a b = true -> leb b c = true -> leb a c = true.
Hypothesis leb_antisym : forall a b, leb a b = true -> leb b a = true -> a = b.

Lemma sorted_perm_eq (l l' : list A) :
  StronglySorted (fun a b => leb a b = true) l ->
  StronglySorted (fun a b => leb a b = true) l' ->
  Permutation l l' -> l = l'.
Proof.
  intros Hs. revert l'. induction Hs as [|x l Hs IH Hx]; intros l' Hs' Hp.
  - apply Permutation_nil in Hp. congruence.
  - destruct Hs' as [|y l' Hs' Hy].
    + apply Permutation_sym, Permutation_nil in Hp. discriminate.
    + assert (E : x = y).
      { rewrite Forall_forall in Hx, Hy.
        assert (Hxin : In x (y :: l'))
          by (eapply Permutation_in; [exact Hp | left; reflexivity]).
        assert (Hyin : In y (x :: l)).
        { eapply Permutation_in;
            [apply Permutation_sym, Hp | left; reflexivity]. }
        destruct Hxin as [-> | Hxin]; [reflexivity |].
        destruct Hyin as [-> | Hyin]; [reflexivity |].
        apply leb_antisym; auto. }
      subst y. f_equal. apply IH; [exact Hs' |].
      eapply Permutation_cons_inv, Hp.
Qed.

Lemma sort_by_canonical (l l' : list A) :
  Permutation l l' -> sort_by leb l = sort_by leb l'.
Proof.
  intros Hp. apply sorted_perm_eq.
  - apply Sorted_StronglySorted; [exact leb_trans |].
    apply sort_by_sorted, leb_total.
  - apply Sorted_StronglySorted; [exact leb_trans |].
    apply sort_by_sorted, leb_total.
  - eapply Permutation_trans; [apply sort_by_perm |].
    eapply Permutation_trans; [exact Hp |].
    apply Permutation_sym, sort_by_perm.
Qed.
End Canonical.

Lemma pair_compare_lt_trans (a b c : string * string) :
  pair_compare a b = Lt -> pair_compare b c = Lt -> pair_compare a c = Lt.
Proof.
  unfold pair_compare. destruct a as [a1 a2], b as [b1 b2], c as [c1 c2].
  simpl.
  destruct (String.compare a1 b1) eqn:E1; simpl; try discriminate;
    destruct (String.compare b1 c1) eqn:E2; simpl; try discriminate;
    intros H1 H2.
  - apply string_compare_eq in E1, E2. subst.
    rewrite string_compare_refl. simpl.
    eapply string_compare_lt_trans; eassumption.
  - apply string_compare_eq in E1. subst. rewrite E2. reflexivity.
  - apply string_compare_eq in E2. subst. rewrite E1. reflexivity.
  - rewrite (string_compare_lt_trans _ _ _ E1 E2). reflexivity.
Qed.

Lemma key_compare_lt_trans (a b c : group_key) :
  key_compare a b = Lt -> key_compare b c = Lt -> key_compare a c = Lt.
Proof.
  unfold key_compare. destruct a as [a1 a2], b as [b1 b2], c as [c1 c2].
  simpl.
  destruct (date_compare a1 b1) eqn:E1; simpl; try discriminate;
    destruct (date_compare b1 c1) eqn:E2; simpl; try discriminate;
    intros H1 H2.
  - apply date_compare_eq in E1, E2. subst.
    rewrite date_compare_refl. simpl.
    eapply pair_compare_lt_trans; eassumption.
  - apply date_compare_eq in E1. subst. rewrite E2. reflexivity.
  - apply date_compare_eq in E2. subst. rewrite E1. reflexivity.
  - rewrite (date_compare_lt_trans _ _ _ E1 E2). reflexivity.
Qed.

Lemma key_compare_antisym (a b : group_key) :
  key_compare a b = CompOpp (key_compare b a).
Proof.
  unfold key_compare.
  rewrite lex_opp, <- date_compare_antisym, <- pair_compare_antisym.
  reflexivity.
Qed.

Lemma key_leb_iff (a b : group_key) :
  key_leb a b = true <-> key_compare a b = Lt \/ a = b.
Proof.
  unfold key_leb. rewrite <- key_compare_eq.
  destruct (key_compare a b); simpl; split; intros H; auto;
    try discriminate; destruct H; discriminate.
Qed.

Lemma key_leb_total (a b : group_key) :
  key_leb a b = true \/ key_leb b a = true.
Proof.
  unfold key_leb. rewrite (key_compare_antisym b a). apply is_le_total.
Qed.

Lemma key_leb_trans (a b c : group_key) :
  key_leb a b = true -> key_leb b c = true -> key_leb a c = true.
Proof.
  rewrite !key_leb_iff. intros [H1 | ->] [H2 | ->]; auto.
  left. eapply key_compare_lt_trans; eassumption.
Qed.

Lemma key_leb_antisym (a b : group_key) :
  key_leb a b = true -> key_leb b a = true -> a = b.
Proof.
  rewrite !key_leb_iff. intros [H1 | ->] [H2 | E]; auto.
  rewrite key_compare_antisym, H2 in H1. discriminate.
Qed.

Lemma count_key_perm (k : group_key) (pts pts' : list matched_point) :
  Permutation pts pts' -> count_key k pts = count_key k pts'.
Proof.
  unfold count_key.
  induction 1 as [| x l l' Hp IH | x y l | l l' l'' H1 IH1 H2 IH2]; simpl.
  - reflexivity.
  - destruct (key_eqb (key_of_point x) k); simpl; congruence.
  - destruct (key_eqb (key_of_point x) k), (key_eqb (key_of_point y) k);
      reflexivity.
  - congruence.
Qed.

(** X9.  The aggregator's table depends on which points were matched,
    not on the order in which they come: two lists of matched points
    that are permutations of each other give the same table, row for
    row. *)
Theorem aggregate_order_independent (pts pts' : list matched_point) :
  Permutation pts pts' -> aggregate pts = aggregate pts'.
Proof.
  intros Hp. unfold aggregate. f_equal. rewrite !group_sizes_eq.
  assert (Hkeys : sort_by key_leb (unique key_eqb (map key_of_point pts))
                  = sort_by key_leb
                      (unique key_eqb (map key_of_point pts'))).
  { apply (sort_by_canonical key_leb key_leb_total key_leb_trans
             key_leb_antisym).
    apply NoDup_Permutation;
      try apply (unique_NoDup key_eqb key_eqb_eq).
    intros k. rewrite !(unique_In key_eqb key_eqb_eq).
    split; apply Permutation_in, Permutation_map;
      [exact Hp | apply Permutation_sym, Hp]. }
  rewrite Hkeys. apply map_ext. intros k.
  rewrite (count_key_perm k pts pts' Hp). reflexivity.
Qed.

(** ** The tables the output stages accept *)

Lemma same_kind_unique (l : list acq_date) :
  same_kind (unique date_eqb l) = same_kind l.
Proof.
  destruct (same_kind l) eqn:E.
  - eapply same_kind_incl; [| exact E].
    intros x. apply (unique_In date_eqb date_eqb_eq).
  - destruct (same_kind (unique date_eqb l)) eqn:E'; [| reflexivity].
    rewrite <- E. symmetry. eapply same_kind_incl; [| exact E'].
    intros x. apply (unique_In date_eqb date_eqb_eq).
Qed.

(** X10.  The two output stages accept the same tables.  On a table
    whose dates are all strings or all date objects both return a
    document; on a table that mixes the two kinds both raise
    [TypeError]. *)
Theorem output_stages_fail_alike (now1 now2 : string) (t : table) :
  (same_kind (map ACQ_DATE t) = true ->
   (exists doc, create_json_output now1 t = Return doc)
   /\ (exists sdoc, create_summary_output now2 t = Return sdoc))
  /\ (same_kind (map ACQ_DATE t) = false ->
      create_json_output now1 t = Raise TypeError
      /\ create_summary_output now2 t = Raise TypeError).
Proof.
  split.
  - intros H. split;
      [apply create_json_output_returns | apply create_summary_output_returns];
      exact H.
  - intros H. destruct t as [|r t']; [discriminate |].
    unfold create_json_output, create_summary_output, unique_dates_of,
      sorted_dates.
    rewrite same_kind_unique, H. split; reflexivity.
Qed.

(** ** How a run ends *)

Section RunFacts.

Variables geometry polygon crs : Type.
Variable crs_eq_dec : forall a b : crs, {a = b} + {a <> b}.
Variable transform : crs -> crs -> geometry -> geometry.
Variable within : geometry -> polygon -> bool.
Variable concat_crs : option crs -> option crs -> outcome (option crs).
Variable w : world geometry polygon crs.

(** Take the next call of a run apart; the branches that contradict
    [H] go. *)
Ltac next_call H c :=
  let E := fresh "E" in
  destruct c eqn:E; simpl in H; try discriminate H.

Lemma download_result (s : run_state) :
  stage_result (library_calls_raise concat_crs w) s
    (download_and_extract_fire_data w s)
    (fun path => path = FIRE_SHAPEFILE).
Proof.
  unfold stage_result, download_and_extract_fire_data, try_except, bind,
    lift, ret, print, sys_exit.
  destruct (fetch_and_extract w) as [[] | e | n] eqn:E; simpl.
  - destruct (path_exists w FIRE_SHAPEFILE); simpl; split; eauto.
  - split; eauto.
  - split; [reflexivity |]. right. exists n. split; [reflexivity |].
    intros (_ & H & _). destruct (H n E).
Qed.

Lemma load_result (s : run_state) :
  stage_result (library_calls_raise concat_crs w) s
    (load_district_shapefiles concat_crs w s)
    districts_labelled.
Proof.
  destruct (load_district_shapefiles concat_crs w s) as [o s'] eqn:Hrun.
  destruct o as [districts | e | n].
  - assert (Hl : districts_labelled districts)
      by (eapply load_district_shapefiles_labelled; exact Hrun).
    revert Hrun.
    unfold stage_result, load_district_shapefiles, try_except, bind, lift,
      ret, print, sys_exit.
    intros H.
    next_call H (path_exists w PUNJAB_SHAPEFILE).
    next_call H (path_exists w HARYANA_SHAPEFILE).
    next_call H (read_polygons w PUNJAB_SHAPEFILE).
    next_call H (read_polygons w HARYANA_SHAPEFILE).
    next_call H (has_column DISTRICT_COLUMN a).
    next_call H (has_column DISTRICT_COLUMN a0).
    next_call H (concat_crs (polygon_crs a) (polygon_crs a0)).
    injection H as _ <-. simpl. split; eauto.
  - exfalso. revert Hrun.
    unfold load_district_shapefiles, try_except, bind, lift, ret, print,
      sys_exit.
    intros H.
    repeat match type of H with
           | context [match ?c with _ => _ end] =>
               destruct c; simpl in H; try discriminate H
           end.
  - revert Hrun.
    unfold stage_result, load_district_shapefiles, try_except, bind, lift,
      ret, print, sys_exit.
    intros H.
    assert (Hfiles : files s' = files s
                     /\ (library_calls_raise concat_crs w -> n = 1));
      [| simpl; split; [tauto | right; exists n; tauto]].
    { destruct (path_exists w PUNJAB_SHAPEFILE); simpl in H;
        [| injection H as <- <-; auto].
      destruct (path_exists w HARYANA_SHAPEFILE); simpl in H;
        [| injection H as <- <-; auto].
      destruct (read_polygons w PUNJAB_SHAPEFILE) as [pf | e | m] eqn:Ep;
        simpl in H;
        [| injection H as <- <-; auto
         | injection H as <- <-; split; [reflexivity |];
           intros (_ & _ & Hr & _); destruct (Hr _ _ Ep)].
      destruct (read_polygons w HARYANA_SHAPEFILE) as [hf | e | m] eqn:Eh;
        simpl in H;
        [| injection H as <- <-; auto
         | injection H as <- <-; split; [reflexivity |];
           intros (_ & _ & Hr & _); destruct (Hr _ _ Eh)].
      destruct (has_column DISTRICT_COLUMN pf); simpl in H;
        [| injection H as <- <-; auto].
      destruct (has_column DISTRICT_COLUMN hf); simpl in H;
        [| injection H as <- <-; auto].
      destruct (concat_crs (polygon_crs pf) (polygon_crs hf))
        as [c | e | m] eqn:Ec; simpl in H;
        [discriminate H
        | injection H as <- <-; auto
        | injection H as <- <-; split; [reflexivity |];
          intros (_ & _ & _ & _ & Hr); destruct (Hr _ _ _ Ec)]. }
Qed.

Lemma load_returns_inv (s s' : run_state)
    (districts : district_frame polygon crs) :
  load_district_shapefiles concat_crs w s = (Return districts, s') ->
  s' = s
  /\ exists punjab_source haryana_source,
       read_polygons w PUNJAB_SHAPEFILE = Return punjab_source
       /\ read_polygons w HARYANA_SHAPEFILE = Return haryana_source
       /\ In DISTRICT_COLUMN (columns punjab_source)
       /\ In DISTRICT_COLUMN (columns haryana_source)
       /\ district_rows districts
          = stamp "Punjab" punjab_source ++ stamp "Haryana" haryana_source
       /\ List.length (district_rows districts)
          = (List.length (polygon_rows punjab_source)
             + List.length (polygon_rows haryana_source))%nat
       /\ concat_crs (polygon_crs punjab_source)
            (polygon_crs haryana_source)
          = Return (district_crs districts).
Proof.
  unfold load_district_shapefiles, try_except, bind, lift, ret, print,
    sys_exit.
  intros H.
  next_call H (path_exists w PUNJAB_SHAPEFILE).
  next_call H (path_exists w HARYANA_SHAPEFILE).
  next_call H (read_polygons w PUNJAB_SHAPEFILE).
  next_call H (read_polygons w HARYANA_SHAPEFILE).
  next_call H (has_column DISTRICT_COLUMN a).
  next_call H (has_column DISTRICT_COLUMN a0).
  next_call H (concat_crs (polygon_crs a) (polygon_crs a0)).
  injection H as <- <-. split; [reflexivity |].
  exists a, a0. simpl.
  repeat split; try reflexivity; try assumption;
    try (apply has_column_In; assumption).
  unfold stamp. rewrite length_app, !length_map. reflexivity.
Qed.

(** X11.  When the loader returns, it has printed nothing, both
    sources were read and have the district column, and the combined
    frame holds the Punjab rows followed by the Haryana rows, each
    stamped with its region, none dropped and none twice. *)
Theorem loaded_districts (s s' : run_state)
    (districts : district_frame polygon crs) :
  load_district_shapefiles concat_crs w s = (Return districts, s') ->
  s' = s
  /\ exists punjab_source haryana_source,
       read_polygons w PUNJAB_SHAPEFILE = Return punjab_source
       /\ read_polygons w HARYANA_SHAPEFILE = Return haryana_source
       /\ In DISTRICT_COLUMN (columns punjab_source)
       /\ In DISTRICT_COLUMN (columns haryana_source)
       /\ district_rows districts
          = stamp "Punjab" punjab_source ++ stamp "Haryana" haryana_source
       /\ List.length (district_rows districts)
          = (List.length (polygon_rows punjab_source)
             + List.length (polygon_rows haryana_source))%nat
       /\ concat_crs (polygon_crs punjab_source)
            (polygon_crs haryana_source)
          = Return (district_crs districts).
Proof. apply load_returns_inv. Qed.

Lemma sjoin_length_le (points : point_frame geometry crs)
    (districts : district_frame polygon crs) :
  (List.length (sjoin within points districts)
   <= List.length (point_rows points)
      * List.length (district_rows districts))%nat.
Proof.
  unfold sjoin. induction (point_rows points) as [|p rows IH]; simpl.
  - lia.
  - rewrite length_app, length_map.
    pose proof (filter_length_le
                  (fun d => within (point_geometry p) (district_shape d))
                  (district_rows districts)).
    lia.
Qed.

Lemma sort_points_length (points sorted : point_frame geometry crs) :
  sort_points points = Return sorted ->
  List.length (point_rows sorted) = List.length (point_rows points)
  /\ point_crs sorted = point_crs points.
Proof.
  unfold sort_points. destruct (same_kind _); intros H; [| discriminate].
  injection H as <-. simpl. split; [apply sort_by_length | reflexivity].
Qed.

Lemma reconcile_crs_length (points reconciled : point_frame geometry crs)
    (districts : district_frame polygon crs) :
  reconcile_crs crs_eq_dec transform points districts = Return reconciled ->
  List.length (point_rows reconciled) = List.length (point_rows points).
Proof.
  unfold reconcile_crs, to_crs.
  destruct (negb _); [| intros H; injection H as <-; reflexivity].
  destruct (point_crs points), (district_crs districts); intros H;
    try discriminate.
  injection H as <-. simpl. apply length_map.
Qed.

Lemma process_result (path : string)
    (districts : district_frame polygon crs) (s : run_state) :
  districts_labelled districts ->
  stage_result (library_calls_raise concat_crs w) s
    (process_fire_counts crs_eq_dec transform within w path districts s)
    (fun t =>
       exists pts points,
         points_labelled pts /\ aggregate pts = Return t
         /\ read_points w path = Return points
         /\ (List.length pts
             <= List.length (point_rows points)
                * List.length (district_rows districts))%nat).
Proof.
  intros Hl.
  unfold stage_result, process_fire_counts, try_except, bind, lift, ret,
    print, sys_exit.
  destruct (read_points w path) as [points | e | n] eqn:Er; simpl.
  - destruct (point_rows points) as [|p rows] eqn:Erows; simpl.
    + split; [reflexivity |]. left. exists []. split; [reflexivity |].
      exists [], points. repeat split; try constructor. rewrite Erows.
      simpl. lia.
    + destruct (sort_points points) as [sorted | e | n] eqn:Es; simpl;
        [| split; eauto | split; [reflexivity |]; right; exists n;
                          split; [reflexivity |]; unfold sort_points in Es;
                          destruct (same_kind _); discriminate].
      destruct (reconcile_crs crs_eq_dec transform sorted districts)
        as [reconciled | e | n] eqn:Ec; simpl;
        [| split; eauto | split; [reflexivity |]; right; exists n;
                          split; [reflexivity |];
                          unfold reconcile_crs, to_crs in Ec;
                          destruct (negb _), (point_crs sorted),
                            (district_crs districts); discriminate].
      assert (Hlen : (List.length (sjoin within reconciled districts)
                      <= List.length (point_rows points)
                         * List.length (district_rows districts))%nat).
      { pose proof (sjoin_length_le reconciled districts) as Hj.
        rewrite (reconcile_crs_length _ _ _ Ec) in Hj.
        destruct (sort_points_length _ _ Es) as [E _].
        rewrite E in Hj. exact Hj. }
      pose proof (sjoin_labelled _ _ _ within reconciled districts Hl) as Hp.
      remember (sjoin within reconciled districts) as joined eqn:Ej.
      clear Ej.
      destruct (aggregate joined) as [t | e | n] eqn:Ea.
      * destruct joined; simpl; (split; [reflexivity |]); left;
          exists t; (split; [reflexivity |]); eauto 8.
      * destruct joined; simpl; split; eauto.
      * exfalso. unfold aggregate, sort_values in Ea.
        destruct (same_kind _); discriminate.
  - split; eauto.
  - split; [reflexivity |]. right. exists n. split; [reflexivity |].
    intros (_ & _ & _ & H & _). destruct (H _ _ Er).
Qed.

Lemma create_json_output_no_exit (now : string) (t : table) (n : Z) :
  create_json_output now t <> SysExit n.
Proof.
  destruct t as [|r t']; [discriminate |].
  unfold create_json_output, unique_dates_of, sorted_dates.
  destruct (same_kind _); discriminate.
Qed.

Lemma date_range_of_no_exit (ds : list acq_date) (n : Z) :
  date_range_of ds <> SysExit n.
Proof.
  destruct ds as [|first rest]; [discriminate |].
  unfold date_range_of.
  generalize (List.last (first :: rest) first). intros final.
  destruct first, final; discriminate.
Qed.

Lemma create_summary_output_no_exit (now : string) (t : table) (n : Z) :
  create_summary_output now t <> SysExit n.
Proof.
  destruct t as [|r t']; [discriminate |].
  unfold create_summary_output.
  destruct (unique_dates_of (r :: t')) as [ds | e | m] eqn:E; simpl;
    try discriminate.
  - destruct (date_range_of ds) as [range | e | m] eqn:Er; simpl;
      try discriminate.
    destruct (date_range_of_no_exit _ _ Er).
  - unfold unique_dates_of, sorted_dates in E.
    destruct (same_kind _); discriminate.
Qed.

(** Every run ends in one of the three ways of [run_end]. *)
Lemma main_end (s : run_state) :
  run_end (library_calls_raise concat_crs w) w s
    (main crs_eq_dec transform within concat_crs w s).
Proof.
  unfold main, try_except, bind, lift, ret, print, sys_exit.
  destruct (makedirs w) as [[] | e | n] eqn:Emk; simpl;
    [| apply (StoppedEarly _ _ _ _ 1); simpl; auto
     | apply (StoppedEarly _ _ _ _ n); simpl; auto;
       intros (H & _); destruct (H n Emk)].
  destruct (download_result s) as [Hf1 Hc1].
  destruct (download_and_extract_fire_data w s) as [o1 s1]. simpl in *.
  destruct Hc1 as [(path & -> & ->) | (n & -> & Hn)];
    [| apply (StoppedEarly _ _ _ _ n); simpl; auto].
  destruct (load_result s1) as [Hf2 Hc2].
  destruct (load_district_shapefiles concat_crs w s1) as [o2 s2] eqn:Eload.
  simpl in *.
  destruct Hc2 as [(districts & -> & Hl) | (n & -> & Hn)];
    [| apply (StoppedEarly _ _ _ _ n); simpl; auto; congruence].
  destruct (process_result FIRE_SHAPEFILE districts s2 Hl) as [Hf3 Hc3].
  destruct (process_fire_counts crs_eq_dec transform within w
              FIRE_SHAPEFILE districts s2) as [o3 s3].
  simpl in *.
  assert (Hfiles : files s3 = files s) by congruence.
  destruct Hc3 as [(t & -> & pts & points & Hlab & Hagg & Hread & Hlen)
                  | (n & -> & Hn)];
    [| apply (StoppedEarly _ _ _ _ n); simpl; auto].
  destruct (create_json_output (utcnow_daily w) t) as [doc | e | n] eqn:Ej;
    simpl;
    [| apply (StoppedEarly _ _ _ _ 1); simpl; auto
     | destruct (create_json_output_no_exit _ _ _ Ej)].
  destruct (create_summary_output (utcnow_summary w) t)
    as [sdoc | e | n] eqn:Es; simpl;
    [| apply (StoppedEarly _ _ _ _ 1); simpl; auto
     | destruct (create_summary_output_no_exit _ _ _ Es)].
  unfold dump.
  destruct (writable w OUTPUT_JSON) eqn:Ew1; simpl;
    [| apply (StoppedEarly _ _ _ _ 1); simpl; auto].
  destruct (writable w SUMMARY_JSON) eqn:Ew2; simpl.
  - apply (Done _ _ _ _ pts t doc sdoc); simpl; auto.
    + destruct (load_returns_inv _ _ _ Eload)
        as (_ & pf & hf & Hp & Hh & _ & _ & _ & Hrows & _).
      unfold join_bound. rewrite Hread, Hp, Hh, <- Hrows. exact Hlen.
    + rewrite Hfiles. reflexivity.
  - apply (StoppedHalfway _ _ _ _ t doc); simpl; auto.
    rewrite Hfiles. reflexivity.
Qed.

(** X12.  When the library calls only return or raise, a run ends in
    one of two ways: [main] returns, or the process is ended with
    status 1.  No exception leaves [main] and no other status occurs. *)
Theorem main_exit_status (s : run_state) :
  library_calls_raise concat_crs w ->
  fst (main crs_eq_dec transform within concat_crs w s) = Return tt
  \/ fst (main crs_eq_dec transform within concat_crs w s) = SysExit 1.
Proof.
  intros Hraise.
  destruct (main_end s) as [n Ho Hn _ | t doc Ho _ _ _ _
                           | pts t doc sdoc Ho _ _ _ _ _ _].
  - right. rewrite Ho, (Hn Hraise). reflexivity.
  - right. exact Ho.
  - left. exact Ho.
Qed.



(** X15.  When [main] returns and the points times the districts are
    fewer than 2^63, the documents in the two files agree: the
    summary's [total_fire_count] is the sum of the daily
    [combined_total] values and the sum of the two state totals. *)
Theorem written_documents_agree (s : run_state) :
  Z.of_nat (join_bound w) < 2 ^ 63 ->
  fst (main crs_eq_dec transform within concat_crs w s) = Return tt ->
  exists doc sdoc,
    files (snd (main crs_eq_dec transform within concat_crs w s)) OUTPUT_JSON
    = Some (DailyJson doc)
    /\ files (snd (main crs_eq_dec transform within concat_crs w s))
         SUMMARY_JSON
       = Some (SummaryJson sdoc)
    /\ total_fire_count sdoc = Zsum (map combined_total (daily_data doc))
    /\ total_fire_count sdoc
       = punjab_total (state_totals sdoc) + haryana_total (state_totals sdoc).
Proof.
  intros Hbound Hret.
  destruct (main_end s) as [n Ho _ _ | t doc Ho _ _ _ _
                           | pts t doc sdoc _ Hl Ha Hlen Hj Hs Hf];
    try (rewrite Ho in Hret; discriminate).
  exists doc, sdoc. rewrite Hf.
  split; [reflexivity |]. split; [reflexivity |].
  destruct (matched_points_totals pts t (utcnow_daily w) (utcnow_summary w)
              doc sdoc) as (E1 & E2 & E3);
    auto; lia.
Qed.



(** X18.  Points and districts whose reference systems differ, one of
    them being undefined, cannot be reconciled: the aggregation stage
    prints the [ValueError] and ends the process with status 1. *)
Theorem undefined_crs_aborts (path : string)
    (districts : district_frame polygon crs)
    (points : point_frame geometry crs) (s : run_state) :
  read_points w path = Return points ->
  point_rows points <> [] ->
  same_kind (map (@point_ACQ_DATE geometry) (point_rows points)) = true ->
  point_crs points <> district_crs districts ->
  point_crs points = None \/ district_crs districts = None ->
  process_fire_counts crs_eq_dec transform within w path districts s
  = (SysExit 1,
     mkRunState (stdout s ++ [ErrorIn "fire processing" ValueError])
       (files s)).
Proof.
  intros Hread Hne Hkind Hdiff Hnone.
  unfold process_fire_counts, try_except, bind, lift, ret, print, sys_exit.
  rewrite Hread.
  destruct (point_rows points) as [|p rows] eqn:Erows; [congruence |].
  unfold sort_points. rewrite Erows, Hkind.
  rewrite (reconcile_crs_undefined _ _ _ crs_eq_dec transform);
    [reflexivity | exact Hdiff | exact Hnone].
Qed.

(** X19.  Points whose dates are partly strings and partly date objects
    cannot be sorted: the aggregation stage prints the [TypeError] and
    ends the process with status 1, whatever the reference systems and
    the districts are. *)
Theorem mixed_dates_abort (path : string)
    (districts : district_frame polygon crs)
    (points : point_frame geometry crs) (s : run_state) :
  read_points w path = Return points ->
  same_kind (map (@point_ACQ_DATE geometry) (point_rows points)) = false ->
  process_fire_counts crs_eq_dec transform within w path districts s
  = (SysExit 1,
     mkRunState (stdout s ++ [ErrorIn "fire processing" TypeError])
       (files s)).
Proof.
  intros Hread Hkind.
  unfold process_fire_counts, try_except, bind, lift, ret, print, sys_exit.
  rewrite Hread.
  destruct (point_rows points) as [|p rows] eqn:Erows;
    [discriminate Hkind |].
  unfold sort_points. rewrite Erows, Hkind. reflexivity.
Qed.

Lemma sjoin_length (points : point_frame geometry crs)
    (districts : district_frame polygon crs) :
  List.length (sjoin within points districts)
  = nat_sum (map (containing within districts) (point_rows points)).
Proof.
  unfold sjoin, containing.
  induction (point_rows points) as [|p rows IH]; simpl; [reflexivity |].
  rewrite length_app, length_map, IH. reflexivity.
Qed.

(** X20.  The counts of the table made from a join add up to the
    number of pairs of a point and a district that contains it: a point
    in no district is not counted, a point in two districts is counted
    twice; when no point lies in two districts the counts add up to no
    more than the number of points. *)
Theorem table_counts_containments (points : point_frame geometry crs)
    (districts : district_frame polygon crs) (t : table) :
  aggregate (sjoin within points districts) = Return t ->
  Zsum (map fire_count t)
  = Z.of_nat (nat_sum (map (containing within districts)
                         (point_rows points)))
  /\ ((forall p, In p (point_rows points) ->
         (containing within districts p <= 1)%nat) ->
      Zsum (map fire_count t) <= Z.of_nat (List.length (point_rows points))).
Proof.
  intros Ht. rewrite (aggregate_total _ _ Ht), sjoin_length.
  split; [reflexivity |].
  intros Hone. apply inj_le.
  induction (point_rows points) as [|p rows IH]; simpl; [lia |].
  pose proof (Hone p (or_introl eq_refl)).
  assert ((nat_sum (map (containing within districts) rows)
           <= List.length rows)%nat)
    by (apply IH; intros q Hq; apply Hone; right; exact Hq).
  lia.
Qed.

End RunFacts.

(** ** The further properties at work on concrete inputs *)

Lemma state_totals_match_daily_witness :
  exists doc sdoc,
    create_json_output run_time tie_table = Return doc
    /\ create_summary_output run_time tie_table = Return sdoc
    /\ punjab_total (state_totals sdoc) = 4
    /\ punjab_total (state_totals sdoc)
       = Zsum (map (fun e => total (punjab e)) (daily_data doc))
    /\ haryana_total (state_totals sdoc)
       = Zsum (map (fun e => total (haryana e)) (daily_data doc)).
Proof.
  do 2 eexists.
  split; [vm_compute; reflexivity |].
  split; [vm_compute; reflexivity |].
  split; [reflexivity |].
  apply (state_totals_match_daily run_time run_time tie_table);
    vm_compute; reflexivity.
Defined.

Lemma state_totals_add_up_witness :
  exists sdoc,
    create_summary_output run_time tie_table = Return sdoc
    /\ punjab_total (state_totals sdoc) + haryana_total (state_totals sdoc)
       = total_fire_count sdoc.
Proof.
  eexists. split; [vm_compute; reflexivity |].
  apply (state_totals_add_up run_time tie_table); vm_compute; reflexivity.
Defined.

Lemma top_districts_period_sums_witness :
  exists sdoc,
    create_summary_output run_time tie_table = Return sdoc
    /\ NoDup (map top_key (top_districts sdoc))
    /\ forall x, In x (top_districts sdoc) ->
         In (top_key x) (map pair_of_row tie_table)
         /\ total_fires x = period_sum (top_key x) tie_table.
Proof.
  eexists. split; [vm_compute; reflexivity |].
  apply (top_districts_period_sums run_time tie_table).
  vm_compute. reflexivity.
Defined.

Lemma top_districts_dominate_witness :
  exists sdoc,
    create_summary_output run_time crowded_table = Return sdoc
    /\ List.length (top_districts sdoc) = 20%nat
    /\ forall x, In x (top_districts sdoc) ->
         period_sum ("Punjab", "U") crowded_table <= total_fires x.
Proof.
  eexists. split; [vm_compute; reflexivity |].
  apply (top_districts_dominate run_time crowded_table).
  - vm_compute. reflexivity.
  - vm_compute. do 20 right. left. reflexivity.
  - vm_compute. intros H.
    repeat (destruct H as [H | H]; [discriminate H |]). exact H.
Defined.

Lemma daily_entries_ascending_witness :
  exists doc ds,
    create_json_output run_time object_table = Return doc
    /\ StronglySorted date_lt ds
    /\ (forall d, In d ds <-> In d (map ACQ_DATE object_table))
    /\ map date (daily_data doc) = map date_str_of ds
    /\ List.length (daily_data doc) = List.length ds.
Proof.
  eexists.
  destruct (daily_entries_ascending run_time object_table
              (mkDailyDocument run_time "NASA FIRMS VIIRS (NOAA-20)" "7 days"
                 (map (daily_entry_of object_table)
                    [ DateObj (mkTimestamp 2024 1 5 0);
                      DateObj (mkTimestamp 2024 1 6 0) ])))
    as (ds & H); [vm_compute; reflexivity |].
  exists ds. split; [vm_compute; reflexivity | exact H].
Defined.

Lemma date_range_spans_witness :
  exists sdoc lo hi,
    create_summary_output run_time tie_table = Return sdoc
    /\ In lo (map ACQ_DATE tie_table) /\ In hi (map ACQ_DATE tie_table)
    /\ range_start (date_range sdoc) = Some (date_str_of lo)
    /\ range_end (date_range sdoc) = Some (date_str_of hi)
    /\ forall d, In d (map ACQ_DATE tie_table) ->
         date_leb lo d = true /\ date_leb d hi = true.
Proof.
  eexists.
  destruct (date_range_spans run_time tie_table
              (mkSummaryDocument run_time 4
                 (mkDateRange (Some "2024-01-01") (Some "2024-01-02"))
                 [ mkTopDistrict "Punjab" "Ludhiana" 2;
                   mkTopDistrict "Punjab" "Patiala" 2 ]
                 (mkStateTotals 4 0)))
    as (lo & hi & H); [discriminate | vm_compute; reflexivity |].
  exists lo, hi. split; [vm_compute; reflexivity | exact H].
Defined.

Lemma district_lists_descending_witness :
  exists doc,
    create_json_output run_time tie_table = Return doc
    /\ Forall (fun e => StronglySorted count_ge (districts (punjab e))
                        /\ StronglySorted count_ge (districts (haryana e)))
         (daily_data doc).
Proof.
  eexists. split; [vm_compute; reflexivity |].
  apply (district_lists_descending tie_points tie_table run_time);
    vm_compute; reflexivity.
Defined.

Lemma totals_count_matched_points_witness :
  exists doc sdoc,
    create_json_output run_time tie_table = Return doc
    /\ create_summary_output run_time tie_table = Return sdoc
    /\ total_fire_count sdoc = 4
    /\ Zsum (map combined_total (daily_data doc)) = 4
    /\ punjab_total (state_totals sdoc) + haryana_total (state_totals sdoc)
       = 4.
Proof.
  do 2 eexists.
  split; [vm_compute; reflexivity |].
  split; [vm_compute; reflexivity |].
  apply (totals_count_matched_points tie_points tie_table run_time run_time);
    try (vm_compute; reflexivity).
  repeat constructor.
Defined.

Lemma aggregate_order_independent_witness :
  aggregate (rev tie_points) = Return tie_table.
Proof.
  rewrite <- (aggregate_order_independent tie_points (rev tie_points)).
  - vm_compute. reflexivity.
  - apply Permutation_rev.
Defined.

Lemma output_stages_fail_alike_witness :
  create_json_output run_time mixed_table = Raise TypeError
  /\ create_summary_output run_time mixed_table = Raise TypeError.
Proof.
  apply (output_stages_fail_alike run_time run_time mixed_table).
  vm_compute. reflexivity.
Defined.

Lemma toy_library_calls_raise (haryana_source : polygon_frame box Z)
    (points : point_frame (Z * Z) Z) :
  library_calls_raise toy_concat_crs (toy_world haryana_source points).
Proof.
  unfold library_calls_raise, toy_world. simpl.
  repeat split; try discriminate.
  - intros path n. destruct (String.eqb path PUNJAB_SHAPEFILE); discriminate.
  - intros [a|] [b|] n; simpl; try discriminate.
    destruct (Z.eq_dec a b); discriminate.
Defined.

Lemma loaded_districts_witness :
  exists punjab_source haryana_source,
    read_polygons (toy_world toy_haryana toy_points) PUNJAB_SHAPEFILE
    = Return punjab_source
    /\ read_polygons (toy_world toy_haryana toy_points) HARYANA_SHAPEFILE
       = Return haryana_source
    /\ district_rows toy_districts
       = stamp "Punjab" punjab_source ++ stamp "Haryana" haryana_source
    /\ List.length (district_rows toy_districts) = 3%nat.
Proof.
  destruct (loaded_districts _ _ _ toy_concat_crs
              (toy_world toy_haryana toy_points)
              initial_state initial_state toy_districts eq_refl)
    as (_ & pf & hf & Hp & Hh & _ & _ & Hrows & _ & _).
  exists pf, hf. repeat split; assumption.
Defined.

Lemma main_exit_status_witness :
  fst (toy_run (toy_world toy_haryana toy_points)) = Return tt
  \/ fst (toy_run (toy_world toy_haryana toy_points)) = SysExit 1.
Proof.
  apply main_exit_status. apply toy_library_calls_raise.
Defined.



Lemma written_documents_agree_witness :
  exists doc sdoc,
    files (snd (toy_run (toy_world toy_haryana toy_points))) OUTPUT_JSON
    = Some (DailyJson doc)
    /\ files (snd (toy_run (toy_world toy_haryana toy_points))) SUMMARY_JSON
       = Some (SummaryJson sdoc)
    /\ total_fire_count sdoc = Zsum (map combined_total (daily_data doc))
    /\ total_fire_count sdoc
       = punjab_total (state_totals sdoc) + haryana_total (state_totals sdoc).
Proof.
  apply written_documents_agree; vm_compute; reflexivity.
Defined.



Lemma undefined_crs_aborts_witness :
  process_fire_counts Z.eq_dec toy_transform toy_within
    (toy_world toy_haryana naive_points) FIRE_SHAPEFILE toy_districts
    initial_state
  = (SysExit 1,
     mkRunState [ErrorIn "fire processing" ValueError]
       (files initial_state)).
Proof.
  apply (undefined_crs_aborts _ _ _ Z.eq_dec toy_transform toy_within
           (toy_world toy_haryana naive_points) FIRE_SHAPEFILE toy_districts
           naive_points initial_state);
    try reflexivity; try discriminate.
  left. reflexivity.
Defined.

Lemma mixed_dates_abort_witness :
  process_fire_counts Z.eq_dec toy_transform toy_within
    (toy_world toy_haryana mixed_points) FIRE_SHAPEFILE toy_districts
    initial_state
  = (SysExit 1,
     mkRunState [ErrorIn "fire processing" TypeError] (files initial_state)).
Proof.
  apply (mixed_dates_abort _ _ _ Z.eq_dec toy_transform toy_within
           (toy_world toy_haryana mixed_points) FIRE_SHAPEFILE toy_districts
           mixed_points initial_state);
    reflexivity.
Defined.

Lemma table_counts_containments_witness :
  exists t,
    aggregate (sjoin toy_within toy_points overlapping_districts) = Return t
    /\ Zsum (map fire_count t) = 5.
Proof.
  eexists. split; [vm_compute; reflexivity |].
  eapply eq_trans;
    [apply (table_counts_containments _ _ _ toy_within toy_points
              overlapping_districts) |];
    vm_compute; reflexivity.
Defined.
